(** * templar: the self-update daemon ([src/templar/autoupdate.py])

    A shallow embedding of class [AutoUpdate].  The daemon talks to four
    collaborators that are not part of the repository: the git working copy
    (through GitPython), the logger, the operating system ([subprocess],
    [os], [sys], [time]) and [packaging.version].  The embedding keeps the
    code of every method and turns each external call into an entry of a
    trace; the answer of the outside world to a call is given by an
    environment that may depend on everything that happened before.

    Python exceptions are outcomes: a method returns, raises an
    [Exception], ends in [SystemExit], or is replaced by [os.execv].  The
    [while True] loop of [run] is unrolled a given number of cycles.  *)

From Stdlib Require Import String Ascii List ZArith Bool Lia.
Import ListNotations.
Local Open Scope string_scope.
Local Open Scope Z_scope.
Local Open Scope list_scope.

(** ** Python values used by the module *)

Module Py.

(** Exception classes that matter to the handlers of the module.  All of
    them derive from [Exception]; [SystemExit] does not and is an outcome
    of its own below. *)
Inductive exn_class : Type :=
| GitCommandError                 (* git.GitCommandError *)
| InvalidVersion                  (* packaging.version.InvalidVersion *)
| IndexError
| AttributeError
| ValueError
| OtherException (name : string). (* any other subclass of Exception *)

Record exn : Type := mk_exn { exn_cls : exn_class; exn_msg : string }.

(** [isinstance(e, git.GitCommandError)] *)
Definition is_GitCommandError (e : exn) : bool :=
  match exn_cls e with GitCommandError => true | _ => false end.

(** [isinstance(e, Exception)] *)
Definition is_Exception (e : exn) : bool := true.

(** Result of an external call. *)
Inductive result (A : Type) : Type :=
| Ok (a : A)
| Err (e : exn).
Arguments Ok {A} a.
Arguments Err {A} e.

(** How a piece of Python code ends. *)
Inductive outcome (A : Type) : Type :=
| Return (a : A)          (* normal completion *)
| Raise (e : exn)         (* an Exception propagates *)
| SystemExit (code : Z)   (* sys.exit(code): a BaseException, not an Exception *)
| Replaced.               (* os.execv succeeded: the process image is gone *)
Arguments Return {A} a.
Arguments Raise {A} e.
Arguments SystemExit {A} code.
Arguments Replaced {A}.

(** Truthiness of an optional string: [None] and the empty string are
    falsy. *)
Definition truthy (s : option string) : bool :=
  match s with
  | None => false
  | Some EmptyString => false
  | Some _ => true
  end.

(** [s.split(sep)] for a one-character separator. *)
Fixpoint split (sep : ascii) (s : string) : list string :=
  match s with
  | EmptyString => [EmptyString]
  | String c s' =>
      if Ascii.eqb c sep then EmptyString :: split sep s'
      else match split sep s' with
           | [] => [String c EmptyString]
           | w :: ws => String c w :: ws
           end
  end.

(** [s.startswith(p)] *)
Definition startswith (s p : string) : bool := String.prefix p s.

Fixpoint lstrip (drop : ascii -> bool) (s : string) : string :=
  match s with
  | EmptyString => EmptyString
  | String c s' => if drop c then lstrip drop s' else s
  end.

Fixpoint rstrip (drop : ascii -> bool) (s : string) : string :=
  match s with
  | EmptyString => EmptyString
  | String c s' =>
      match rstrip drop s' with
      | EmptyString => if drop c then EmptyString else String c EmptyString
      | r => String c r
      end
  end.

Definition strip_with (drop : ascii -> bool) (s : string) : string :=
  rstrip drop (lstrip drop s).

(** [str.isspace] on the code points below 256. *)
Definition isspace (c : ascii) : bool :=
  let n := nat_of_ascii c in
  (((9 <=? n) && (n <=? 13)) || ((28 <=? n) && (n <=? 32))
   || (n =? 133) || (n =? 160))%nat.

(** [s.strip()] *)
Definition strip (s : string) : string := strip_with isspace s.

(** The character [chr(34)], the double quote. *)
Definition dquote : ascii := ascii_of_nat 34.

(** [s.strip(chars)] where [chars] holds the space and the double quote. *)
Definition strip_space_quote (s : string) : string :=
  strip_with (fun c => Ascii.eqb c " " || Ascii.eqb c dquote) s.

Definition newline : ascii := ascii_of_nat 10.

End Py.
Import Py.

(** ** Trace of external calls and log records *)

Inductive level : Type := DEBUG | INFO | ERROR.

(** One constructor per external operation the module performs, with the
    arguments it passes. *)
Inductive command : Type :=
| RepoOpen                            (* git.Repo(search_parent_directories=True) *)
| RemotesOrigin                       (* repo.remotes.origin *)
| OriginFetch (kill_after_timeout : Z)
| ReadRemoteBlob (branch : string) (path : list string)
                                      (* repo.remote().refs[branch].commit.tree / ... read, decode *)
| ReloadInit                          (* reload(__init__); __init__.__version__ *)
| IsDirty (untracked_files : bool)
| OriginPull (refspec : string) (kill_after_timeout : option Z) (rebase : bool)
| GitReset (arg : string)             (* repo.git.reset(arg) *)
| ActiveBranch                        (* repo.active_branch *)
| IndexDiff                           (* repo.index.diff(None) *)
| GitCheckout (flag path : string)    (* repo.git.checkout(flag, path) *)
| IndexCommit (message : string)      (* repo.index.commit(message) *)
| CheckCall (argv : list string) (timeout : option Z)
| EnvironContains (key : string)      (* key in os.environ *)
| TimeSleep (secs : Z)
| Execv (path : string) (argv : list string).

Inductive event : Type :=
| Call (c : command)
| Log (lv : level) (msg : string) (exc_info : option exn).

(** Chronological: the oldest event first. *)
Definition trace : Type := list event.

(** The commands that change the working tree, the index or the history of
    the local repository. *)
Definition mutates_repo (ev : event) : bool :=
  match ev with
  | Call (OriginPull _ _ _) | Call (GitReset _) | Call (GitCheckout _ _)
  | Call (IndexCommit _) => true
  | _ => false
  end.

Definition is_pull (ev : event) : bool :=
  match ev with Call (OriginPull _ _ _) => true | _ => false end.

Definition is_commit (ev : event) : bool :=
  match ev with Call (IndexCommit _) => true | _ => false end.

Definition is_check_call (ev : event) : bool :=
  match ev with Call (CheckCall _ _) => true | _ => false end.

(** ** The outside world

    Every field answers one external operation; its [trace] argument is the
    history up to the call, so that the world may change as the daemon acts
    on it. *)
Record Env : Type := mk_env {
  repo_open : trace -> result unit;
  remotes_origin : trace -> result unit;
  origin_fetch : trace -> result unit;
  read_remote_blob : string -> list string -> trace -> result string;
  reload_init : trace -> result string;
  imported_version : string;          (* __version__ as bound at import time *)
  is_dirty : trace -> result bool;
  origin_pull : string -> option Z -> bool -> trace -> result unit;
  git_reset : string -> trace -> result unit;
  active_branch : trace -> result string;   (* the name of repo.active_branch *)
  index_diff : trace -> result (list string);  (* the a_path of every item *)
  git_checkout : string -> string -> trace -> result unit;
  index_commit : string -> trace -> result unit;
  check_call : list string -> option Z -> trace -> result unit;
  environ_contains : string -> trace -> bool;
  execv : trace -> option exn;        (* None: the image was replaced *)
  sys_executable : string;
  sys_argv : list string
}.

(** [packaging.version], a third-party library, as a parameter: [parse]
    fails on a string that is no version ([version.parse] raises
    InvalidVersion), and versions are compared through a three-way
    comparison. *)
Record VersionLib : Type := mk_version_lib {
  Version : Type;
  parse : string -> option Version;
  vcompare : Version -> Version -> comparison
}.

(** ** The monad of the embedding: a trace, and one of four endings *)

Definition M (A : Type) : Type := trace -> outcome A * trace.

Definition ret {A} (a : A) : M A := fun t => (Return a, t).

Definition bind {A B} (m : M A) (k : A -> M B) : M B :=
  fun t =>
    match m t with
    | (Return a, t') => k a t'
    | (Raise e, t') => (Raise e, t')
    | (SystemExit c, t') => (SystemExit c, t')
    | (Replaced, t') => (Replaced, t')
    end.

Declare Scope py_scope.
Delimit Scope py_scope with py.
Notation "x <- m ;; k" := (bind m (fun x => k))
  (at level 100, m at next level, right associativity) : py_scope.
Notation "m ;; k" := (bind m (fun _ => k))
  (at level 100, right associativity) : py_scope.
Local Open Scope py_scope.

Definition raise {A} (e : exn) : M A := fun t => (Raise e, t).

(** [sys.exit(code)] *)
Definition sys_exit {A} (code : Z) : M A := fun t => (SystemExit code, t).

(** [try: body  except <class> as e: handler e].  Only a raised exception of
    the class is handled; [SystemExit] and [Replaced] pass through. *)
Definition try_except {A} (body : M A) (cls : exn -> bool)
    (handler : exn -> M A) : M A :=
  fun t =>
    match body t with
    | (Raise e, t') => if cls e then handler e t' else (Raise e, t')
    | r => r
    end.

(** An external call: recorded, then answered by the world from the history
    before it. *)
Definition ext {A} (c : command) (answer : trace -> result A) : M A :=
  fun t =>
    match answer t with
    | Ok a => (Return a, t ++ [Call c])
    | Err e => (Raise e, t ++ [Call c])
    end.

Definition log (lv : level) (msg : string) : M unit :=
  fun t => (Return tt, t ++ [Log lv msg None]).

(** [logger.exception(msg, exc_info=e)]: an ERROR record with the exception. *)
Definition log_exception (msg : string) (e : exn) : M unit :=
  fun t => (Return tt, t ++ [Log ERROR msg (Some e)]).

(** The interpreter keeps a duration as a signed 64-bit count of
    nanoseconds. *)
Definition int64_min : Z := -9223372036854775808.
Definition int64_max : Z := 9223372036854775807.

Definition fits_timestamp (secs : Z) : bool :=
  (int64_min <=? secs * 1000000000) && (secs * 1000000000 <=? int64_max).

Definition timestamp_overflow : exn :=
  mk_exn (OtherException "OverflowError")
    "timestamp too large to convert to C _PyTime_t".


(** [time.sleep(secs)] for a whole number of seconds.  The argument is
    first converted to nanoseconds, which raises [OverflowError] outside
    of the 64-bit range; a negative argument then raises [ValueError].
    Only a sleep that takes place is recorded. *)
Definition time_sleep (secs : Z) : M unit :=
  fun t =>
    if negb (fits_timestamp secs) then (Raise timestamp_overflow, t)
    else if secs <? 0
    then (Raise (mk_exn ValueError "sleep length must be non-negative"), t)
    else (Return tt, t ++ [Call (TimeSleep secs)]).

(** ** The class [AutoUpdate] *)

Definition TARGET_BRANCH : string := "main".

(** The attributes of an instance.  [has_repo] is false when [__init__]
    failed to open the repository: the attribute [repo] was never bound. *)
Record AutoUpdate : Type := mk_self {
  interval_hours : Z;
  process_name : option string;
  has_repo : bool
}.

(** [str(x)] of an optional string inside an f-string. *)
Definition fmt (s : option string) : string :=
  match s with Some x => x | None => "None" end.

(** The longer log messages. *)
Definition conflict_message : string :=
  "Automatic update failed due to conflicts. Attempting to handle merge conflicts.".

Definition update_failed : string :=
  "Automatic update failed. Manually pull the latest changes and update.".

Definition dirty_message : string :=
  "Current changeset is dirty. Please commit changes, discard changes, or update manually.".

Definition no_process_name : string :=
  "PM2 environment detected but process_name not provided".

Definition resolve_failed : string :=
  "Failed to resolve merge conflicts, automatic update cannot proceed. Please manually pull and update.".

(** Raised by [version.parse] on a string that is no version. *)
Definition invalid_version (s : string) : exn :=
  mk_exn InvalidVersion ("Invalid version: '" ++ s ++ "'")%string.

(** Raised by [self.repo] when the attribute was never bound. *)
Definition no_repo : exn :=
  mk_exn AttributeError "'AutoUpdate' object has no attribute 'repo'".

Section Methods.

Variable env : Env.
Variable vlib : VersionLib.

(** Evaluating [self.repo]. *)
Definition self_repo (self : AutoUpdate) : M unit :=
  if has_repo self then ret tt else raise no_repo.

(** A call on [self.repo]. *)
Definition git {A} (self : AutoUpdate) (c : command)
    (answer : trace -> result A) : M A :=
  self_repo self;; ext c answer.

(** [__init__(self, interval_hours=4, process_name=None)] *)
Definition __init__ (interval_hours : Z) (process_name : option string)
    : M AutoUpdate :=
  try_except
    (ext RepoOpen (repo_open env);;
     ret (mk_self interval_hours process_name true))
    is_Exception
    (fun e =>
       log_exception "Failed to initialize the repository" e;;
       ret (mk_self interval_hours process_name false)).

(** [line.split("=")[1].strip().strip(chars)] *)
Definition version_info (line : string) : M string :=
  match nth_error (split "="%char line) 1 with
  | Some v => ret (strip_space_quote (strip v))
  | None => raise (mk_exn IndexError "list index out of range")
  end.

(** The [for line in lines] loop of [get_remote_version]; falling off the
    end of the loop returns [None]. *)
Fixpoint scan_lines (lines : list string) : M (option string) :=
  match lines with
  | [] => ret None
  | line :: rest =>
      if startswith line "__version__"
      then (v <- version_info line;; ret (Some v))
      else scan_lines rest
  end.

Definition init_path : list string := ["src"; "templar"; "__init__.py"].

Definition get_remote_version (self : AutoUpdate) : M (option string) :=
  try_except
    (git self RemotesOrigin (remotes_origin env);;
     ext (OriginFetch 5) (origin_fetch env);;
     text <- git self (ReadRemoteBlob TARGET_BRANCH init_path)
               (read_remote_blob env TARGET_BRANCH init_path);;
     scan_lines (split newline text))
    is_Exception
    (fun e =>
       log_exception "Failed to get remote version for version check" e;;
       ret None).

(** The block that reloads [__init__] and falls back to the imported
    [__version__] (lines 67 to 75). *)
Definition reload_local_version : M string :=
  try_except
    (ext ReloadInit (reload_init env))
    is_Exception
    (fun e =>
       log ERROR ("Failed to reload local version: " ++ exn_msg e)%string;;
       ret (imported_version env)).

(** [version.parse(s)] *)
Definition version_parse (s : string) : M (Version vlib) :=
  match parse vlib s with
  | Some v => ret v
  | None => raise (invalid_version s)
  end.

(** [remote_version_obj > local_version_obj] *)
Definition version_gt (a b : Version vlib) : bool :=
  match vcompare vlib a b with Gt => true | _ => false end.

Definition check_version_updated (self : AutoUpdate) : M bool :=
  remote_version <- get_remote_version self;;
  if negb (truthy remote_version) then
    log ERROR "Failed to get remote version, skipping version check";;
    ret false
  else
    local_version <- reload_local_version;;
    local_version_obj <- version_parse local_version;;
    remote_version_obj <- version_parse (fmt remote_version);;
    log INFO ("Version check - remote_version: " ++ fmt remote_version
              ++ ", local_version: " ++ local_version)%string;;
    if version_gt remote_version_obj local_version_obj then
      log INFO ("Remote version (" ++ fmt remote_version
                ++ ") is higher than local version (" ++ local_version
                ++ "), automatically updating...")%string;;
      ret true
    else ret false.

(** The [for item in self.repo.index.diff(None)] loop. *)
Fixpoint checkout_theirs (self : AutoUpdate) (paths : list string)
    : M unit :=
  match paths with
  | [] => ret tt
  | file_path :: rest =>
      log INFO ("Resolving conflict in file: " ++ file_path)%string;;
      git self (GitCheckout "--theirs" file_path)
        (git_checkout env "--theirs" file_path);;
      checkout_theirs self rest
  end.

Definition commit_message : string := "Resolved merge conflicts automatically".

(** The body of the [try] of [handle_merge_conflicts] (lines 127 to
    141). *)
Definition resolution (self : AutoUpdate) : M bool :=
  git self (GitReset "--merge") (git_reset env "--merge");;
  git self RemotesOrigin (remotes_origin env);;
  current_branch <- git self ActiveBranch (active_branch env);;
  ext (OriginPull current_branch None false)
    (origin_pull env current_branch None false);;
  items <- git self IndexDiff (index_diff env);;
  checkout_theirs self items;;
  git self (IndexCommit commit_message) (index_commit env commit_message);;
  log INFO "Merge conflicts resolved, repository updated to remote state.";;
  log INFO "✅ Successfully updated";;
  ret true.

Definition handle_merge_conflicts (self : AutoUpdate) : M bool :=
  try_except
    (resolution self)
    is_GitCommandError
    (fun e =>
       log_exception resolve_failed e;;
       ret false).

Definition attempt_update (self : AutoUpdate) : M bool :=
  try_except
    (git self RemotesOrigin (remotes_origin env);;
     dirty <- git self (IsDirty false) (is_dirty env);;
     if dirty then
       log ERROR dirty_message;;
       ret false
     else
       try_except
         (log DEBUG "Attempting to pull the latest changes...";;
          ext (OriginPull TARGET_BRANCH (Some 10) true)
            (origin_pull env TARGET_BRANCH (Some 10) true);;
          log DEBUG "Successfully pulled the latest changes";;
          ret true)
         is_GitCommandError
         (fun e =>
            log_exception conflict_message e;;
            handle_merge_conflicts self))
    is_Exception
    (fun e =>
       log_exception update_failed e;;
       ret false).

Definition uv_sync : list string := ["uv"; "sync"; "--extra"; "all"].

Definition attempt_package_update : M unit :=
  log INFO "Attempting to update packages using 'uv sync --extra all'...";;
  try_except
    (ext (CheckCall uv_sync (Some 300)) (check_call env uv_sync (Some 300));;
     log INFO "Successfully updated packages using 'uv sync --extra all'.")
    is_Exception
    (fun e => log_exception "Failed to synchronize dependencies with uv" e).

(** [key in os.environ] *)
Definition in_environ (key : string) : M bool :=
  fun t => (Return (environ_contains env key t), t ++ [Call (EnvironContains key)]).

(** [os.execv(path, argv)]: does not return when it succeeds. *)
Definition os_execv (path : string) (argv : list string) : M unit :=
  fun t =>
    match execv env t with
    | None => (Replaced, t ++ [Call (Execv path argv)])
    | Some e => (Raise e, t ++ [Call (Execv path argv)])
    end.

Definition restart_app (self : AutoUpdate) : M unit :=
  log INFO "Restarting application...";;
  pm2 <- in_environ "PM2_HOME";;
  if pm2 then
    (if negb (truthy (process_name self)) then
       log ERROR no_process_name;;
       sys_exit 1
     else ret tt);;
    log INFO ("Detected PM2 environment. Restarting process: "
              ++ fmt (process_name self))%string;;
    ext (CheckCall ["pm2"; "restart"; fmt (process_name self)] None)
      (check_call env ["pm2"; "restart"; fmt (process_name self)] None);;
    time_sleep 5;;
    sys_exit 1
  else
    os_execv (sys_executable env) (sys_executable env :: sys_argv env).

Definition try_update (self : AutoUpdate) : M unit :=
  updated <- check_version_updated self;;
  if negb updated then ret tt
  else
    applied <- attempt_update self;;
    if negb applied then ret tt
    else
      attempt_package_update;;
      restart_app self.

(** One iteration of the [while True] loop of [run]. *)
Definition cycle (self : AutoUpdate) : M unit :=
  try_except
    (log INFO "Running autoupdate";;
     try_update self)
    is_Exception
    (fun e => log_exception "Exception during autoupdate check" e);;
  time_sleep (interval_hours self * 3600).

(** The first [n] iterations of [run].  The loop has no exit of its own:
    [Return tt] after [n] iterations means that it is about to start
    iteration [n + 1]; any other outcome is how [run] ended. *)
Fixpoint run (self : AutoUpdate) (n : nat) : M unit :=
  match n with
  | O => ret tt
  | S k => cycle self;; run self k
  end.

End Methods.

(** ** Versions

    The theorems below hold for every [VersionLib]; the concrete runs use
    the SemanticVersion of the specification. *)

Module SemVer.

(** Modelled from the spec: the version library is not part of the
    repository.  An identifier of a pre-release tag: numeric, or
    alphanumeric. *)
Inductive ident : Type :=
| Num (n : N)
| Alnum (s : string).

(** Modelled from the spec: the version library is not part of the
    repository.  A SemanticVersion is the ordered triple (major, minor,
    patch) plus an optional pre-release tag. *)
Record t : Type := mk {
  major : N;
  minor : N;
  patch : N;
  pre : option (list ident)
}.

Definition digit (c : ascii) : option N :=
  let n := N_of_ascii c in
  if ((48 <=? n) && (n <=? 57))%N then Some (n - 48)%N else None.

Fixpoint digits (acc : N) (s : string) : option N :=
  match s with
  | EmptyString => Some acc
  | String c r =>
      match digit c with
      | Some d => digits (10 * acc + d)%N r
      | None => None
      end
  end.

(** A numeric field: digits only, not empty, no leading zero. *)
Definition number (s : string) : option N :=
  match s with
  | EmptyString => None
  | String "0" (String _ _) => None
  | _ => digits 0 s
  end.

Definition ident_char (c : ascii) : bool :=
  let n := N_of_ascii c in
  (((48 <=? n) && (n <=? 57)) || ((65 <=? n) && (n <=? 90))
   || ((97 <=? n) && (n <=? 122)) || (n =? 45))%N.

Fixpoint all_chars (p : ascii -> bool) (s : string) : bool :=
  match s with
  | EmptyString => true
  | String c r => p c && all_chars p r
  end.

Definition parse_ident (s : string) : option ident :=
  match s with
  | EmptyString => None
  | _ =>
      if all_chars (fun c => match digit c with Some _ => true | None => false end) s
      then option_map Num (number s)
      else if all_chars ident_char s then Some (Alnum s) else None
  end.

Fixpoint parse_idents (l : list string) : option (list ident) :=
  match l with
  | [] => Some []
  | s :: r =>
      match parse_ident s, parse_idents r with
      | Some i, Some ids => Some (i :: ids)
      | _, _ => None
      end
  end.

(** The text before the first hyphen, and the text after it if any. *)
Fixpoint cut_at_hyphen (s : string) : string * option string :=
  match s with
  | EmptyString => (EmptyString, None)
  | String c r =>
      if Ascii.eqb c "-" then (EmptyString, Some r)
      else let '(a, b) := cut_at_hyphen r in (String c a, b)
  end.

Definition parse_core (s : string) : option (N * N * N) :=
  match Py.split "." s with
  | [a; b; c] =>
      match number a, number b, number c with
      | Some x, Some y, Some z => Some (x, y, z)
      | _, _, _ => None
      end
  | _ => None
  end.

(** Modelled from the spec: the version library is not part of the
    repository.  A version is parsed from a bare string; an invalid string
    is a parse failure. *)
Definition parse (s : string) : option t :=
  let '(core, tag) := cut_at_hyphen s in
  match parse_core core with
  | None => None
  | Some (x, y, z) =>
      match tag with
      | None => Some (mk x y z None)
      | Some p =>
          match parse_idents (Py.split "." p) with
          | Some ids => Some (mk x y z (Some ids))
          | None => None
          end
      end
  end.

(** Precedence of pre-release identifiers: numeric ones by value and
    below alphanumeric ones, alphanumeric ones in ASCII order. *)
Definition compare_ident (a b : ident) : comparison :=
  match a, b with
  | Num x, Num y => N.compare x y
  | Num _, Alnum _ => Lt
  | Alnum _, Num _ => Gt
  | Alnum x, Alnum y => String.compare x y
  end.

Fixpoint compare_pre (a b : list ident) : comparison :=
  match a, b with
  | [], [] => Eq
  | [], _ :: _ => Lt
  | _ :: _, [] => Gt
  | x :: a', y :: b' =>
      match compare_ident x y with
      | Eq => compare_pre a' b'
      | c => c
      end
  end.

Definition lex (c : comparison) (k : comparison) : comparison :=
  match c with Eq => k | _ => c end.

(** Modelled from the spec: the version library is not part of the
    repository.  The total order is the standard semantic-versioning
    precedence: major, minor, patch numerically; a version with a
    pre-release tag comes before the same version without one; two tags
    compare identifier by identifier. *)
Definition compare (v w : t) : comparison :=
  lex (N.compare (major v) (major w))
    (lex (N.compare (minor v) (minor w))
       (lex (N.compare (patch v) (patch w))
          match pre v, pre w with
          | None, None => Eq
          | None, Some _ => Gt
          | Some _, None => Lt
          | Some a, Some b => compare_pre a b
          end)).

Definition lib : VersionLib := mk_version_lib t parse compare.

End SemVer.

(** ** Concrete worlds, for running the methods *)

Module Worlds.

(** The text of an [__init__.py] that declares version [v]. *)
Definition init_text (v : string) : string :=
  ("__version__ = " ++ String dquote (v ++ String dquote (String newline EmptyString)))%string.

Definition always {A} (r : A) : trace -> A := fun _ => r.

Definition CalledProcessError : exn :=
  mk_exn (OtherException "CalledProcessError")
    "Command returned non-zero exit status 1.".

Definition conflict : exn :=
  mk_exn GitCommandError "CONFLICT (content): Merge conflict".

Definition detached_head : exn :=
  mk_exn (OtherException "TypeError") "HEAD is a detached symbolic reference".

Definition reload_failure : exn :=
  mk_exn (OtherException "ImportError") "module not in sys.modules".

(** A world whose answers do not depend on the history.  The imported
    version is 0.2.9; every operation that has no parameter here
    succeeds. *)
Definition world (remote_text : result string) (reloaded : result string)
    (dirty : bool) (pull_rebase : result unit) (branch : result string)
    (changed : list string) (sync : result unit) (pm2 : bool) : Env :=
  {| repo_open := always (Ok tt);
     remotes_origin := always (Ok tt);
     origin_fetch := always (Ok tt);
     read_remote_blob := fun _ _ => always remote_text;
     reload_init := always reloaded;
     imported_version := "0.2.9";
     is_dirty := always (Ok dirty);
     origin_pull := fun _ _ rebase => always (if rebase then pull_rebase else Ok tt);
     git_reset := fun _ => always (Ok tt);
     active_branch := always branch;
     index_diff := always (Ok changed);
     git_checkout := fun _ _ => always (Ok tt);
     index_commit := fun _ => always (Ok tt);
     check_call := fun argv _ =>
       always (match argv with
               | "uv" :: _ => sync
               | _ => Ok tt
               end);
     environ_contains := fun key => always (pm2 && String.eqb key "PM2_HOME");
     execv := always None;
     sys_executable := "/usr/bin/python3";
     sys_argv := ["neurons/miner.py"] |}.

(** Remote at 0.3.0, local at 0.2.9, a clean tree, nothing fails. *)
Definition calm : Env :=
  world (Ok (init_text "0.3.0")) (Ok "0.2.9") false (Ok tt) (Ok "main") []
    (Ok tt) false.

(** The pull of main conflicts: the rebase stops and leaves HEAD
    detached, so that [repo.active_branch] raises a TypeError. *)
Definition detached : Env :=
  world (Ok (init_text "0.3.0")) (Ok "0.2.9") false (Err conflict)
    (Err detached_head) [] (Ok tt) false.

(** The remote declares a version that does not parse. *)
Definition unparsable : Env :=
  world (Ok (init_text "latest")) (Ok "0.2.9") false (Ok tt) (Ok "main") []
    (Ok tt) false.

(** Under the process manager: PM2_HOME is in the environment. *)
Definition managed : Env :=
  world (Ok (init_text "0.3.0")) (Ok "0.2.9") false (Ok tt) (Ok "main") []
    (Ok tt) true.

(** The daemon as the constructor leaves it with its default arguments. *)
Definition daemon : AutoUpdate := mk_self 4 None true.

Definition miner : AutoUpdate := mk_self 4 (Some "miner") true.

End Worlds.

(** ** Vocabulary for the statements *)

Definition error_of {A} (r : result A) : option exn :=
  match r with Ok _ => None | Err e => Some e end.

(** The exception, if any, with which the world answers command [c] issued
    after history [h]. *)
Definition failure (env : Env) (c : command) (h : trace) : option exn :=
  match c with
  | RepoOpen => error_of (repo_open env h)
  | RemotesOrigin => error_of (remotes_origin env h)
  | OriginFetch _ => error_of (origin_fetch env h)
  | ReadRemoteBlob b p => error_of (read_remote_blob env b p h)
  | ReloadInit => error_of (reload_init env h)
  | IsDirty _ => error_of (is_dirty env h)
  | OriginPull r k b => error_of (origin_pull env r k b h)
  | GitReset a => error_of (git_reset env a h)
  | ActiveBranch => error_of (active_branch env h)
  | IndexDiff => error_of (index_diff env h)
  | GitCheckout f p => error_of (git_checkout env f p h)
  | IndexCommit m => error_of (index_commit env m h)
  | CheckCall a k => error_of (check_call env a k h)
  | EnvironContains _ => None
  | TimeSleep _ => None
  | Execv _ _ => execv env h
  end.

(** Every call among the events [added] after history [t] was answered
    without an exception. *)
Fixpoint steps_ok (env : Env) (t : trace) (added : list event) : Prop :=
  match added with
  | [] => True
  | ev :: rest =>
      match ev with
      | Call c => failure env c t = None
      | Log _ _ _ => True
      end /\ steps_ok env (t ++ [ev]) rest
  end.

(** The events of the loop over the changed files. *)
Definition checkout_events (paths : list string) : list event :=
  flat_map
    (fun p => [Log INFO ("Resolving conflict in file: " ++ p)%string None;
               Call (GitCheckout "--theirs" p)])
    paths.

(** The events of a resolution that went through, for the active branch
    [branch] and the changed files [paths]. *)
Definition resolution_events (branch : string) (paths : list string)
    : list event :=
  [Call (GitReset "--merge"); Call RemotesOrigin; Call ActiveBranch;
   Call (OriginPull branch None false); Call IndexDiff]
  ++ checkout_events paths
  ++ [Call (IndexCommit commit_message);
      Log INFO "Merge conflicts resolved, repository updated to remote state." None;
      Log INFO "✅ Successfully updated" None].

Definition is_checkout (ev : event) : bool :=
  match ev with Call (GitCheckout _ _) => true | _ => false end.

(** The commands that only [handle_merge_conflicts] issues. *)
Definition is_resolution_step (ev : event) : bool :=
  match ev with
  | Call (GitReset _) | Call ActiveBranch | Call IndexDiff
  | Call (GitCheckout _ _) | Call (IndexCommit _) => true
  | _ => false
  end.


(** Lines 77 to 89 of [check_version_updated] on their own: the two
    parses, the record of the check and the comparison, for a remote and a
    local version string. *)
Definition compare_versions (vlib : VersionLib) (remote_version local_version : string)
    : M bool :=
  local_version_obj <- version_parse vlib local_version;;
  remote_version_obj <- version_parse vlib remote_version;;
  log INFO ("Version check - remote_version: " ++ remote_version
            ++ ", local_version: " ++ local_version)%string;;
  if version_gt vlib remote_version_obj local_version_obj then
    log INFO ("Remote version (" ++ remote_version
              ++ ") is higher than local version (" ++ local_version
              ++ "), automatically updating...")%string;;
    ret true
  else ret false.

(** The state of a repository after the commands of a trace, for a given
    effect of each command on the state. *)
Definition replay {G : Type} (effect : command -> G -> G)
    (evs : list event) (g : G) : G :=
  fold_left
    (fun g ev => match ev with Call c => effect c g | Log _ _ _ => g end)
    evs g.

(** How a method that only calls the repository and the logger behaves: it
    returns a value satisfying [Q] after calls that all succeeded, or it
    raises what the last call raised (or the missing [repo] attribute). *)
Definition behaves {A} (env : Env) (self : AutoUpdate) (m : M A)
    (Q : A -> Prop) : Prop :=
  forall t,
    match m t with
    | (Return a, t') =>
        Q a /\ exists added, t' = t ++ added /\ steps_ok env t added
    | (Raise e, t') =>
        exists h, steps_ok env t h /\
          ((t' = t ++ h /\ has_repo self = false /\ e = no_repo)
           \/ exists c, t' = t ++ h ++ [Call c] /\ failure env c (t ++ h) = Some e)
    | _ => False
    end.

(** Normal form of traces: appends nested to the right. *)
Ltac trace_norm := repeat rewrite <- app_assoc; cbn [app].

(** Runs the monadic plumbing as far as the answers of the world allow. *)
Ltac py_simpl :=
  cbv beta iota delta
    [bind ret raise sys_exit try_except ext git self_repo log log_exception
     is_Exception negb].

(** ** Vocabulary for the properties of the remaining code *)

Definition is_sleep (ev : event) : bool :=
  match ev with Call (TimeSleep _) => true | _ => false end.

Definition is_execv (ev : event) : bool :=
  match ev with Call (Execv _ _) => true | _ => false end.

(** The code ran to its end, by a return or a raised exception: the
    process is still there and its caller goes on. *)
Definition completes {A} (o : outcome A) : bool :=
  match o with
  | Return _ | Raise _ => true
  | SystemExit _ | Replaced => false
  end.

(** Log records and the calls that only read: the lookup of the remote,
    the fetch, the read of the remote blob and the reload of the module. *)
Definition reads_only (ev : event) : bool :=
  match ev with
  | Log _ _ _ => true
  | Call RemotesOrigin | Call (OriginFetch _) | Call (ReadRemoteBlob _ _)
  | Call ReloadInit => true
  | Call _ => false
  end.

(** Character [c] does not occur in [s]. *)
Fixpoint lacks (c : ascii) (s : string) : bool :=
  match s with
  | EmptyString => true
  | String x r => negb (Ascii.eqb x c) && lacks c r
  end.

(** The line of a manifest that declares the literal [v]. *)
Definition declaration (v : string) : string :=
  ("__version__ = " ++ String dquote (v ++ String dquote EmptyString))%string.

(** Every event that a run adds satisfies [P], whenever the run completes. *)
Definition emits {A} (P : event -> Prop) (m : M A) : Prop :=
  forall t,
    exists added,
      snd (m t) = t ++ added
      /\ (completes (fst (m t)) = true -> Forall P added).

Definition quiet (ev : event) : Prop := is_sleep ev = false.


Definition negative_sleep : exn :=
  mk_exn ValueError "sleep length must be non-negative".

(** More worlds. *)
Module Scenes.



(** Remote and local are both at 0.2.9. *)
Definition up_to_date : Env :=
  Worlds.world (Ok (Worlds.init_text "0.2.9")) (Ok "0.2.9") false (Ok tt)
    (Ok "main") [] (Ok tt) false.

(** The reloaded local version does not parse; the remote is at 0.3.0. *)
Definition local_unparsable : Env :=
  Worlds.world (Ok (Worlds.init_text "0.3.0")) (Ok "dev-build") false (Ok tt)
    (Ok "main") [] (Ok tt) false.

(** Under the process manager, and the manager refuses the restart. *)
Definition manager_fails : Env :=
  {| repo_open := repo_open Worlds.managed;
     remotes_origin := remotes_origin Worlds.managed;
     origin_fetch := origin_fetch Worlds.managed;
     read_remote_blob := read_remote_blob Worlds.managed;
     reload_init := reload_init Worlds.managed;
     imported_version := imported_version Worlds.managed;
     is_dirty := is_dirty Worlds.managed;
     origin_pull := origin_pull Worlds.managed;
     git_reset := git_reset Worlds.managed;
     active_branch := active_branch Worlds.managed;
     index_diff := index_diff Worlds.managed;
     git_checkout := git_checkout Worlds.managed;
     index_commit := index_commit Worlds.managed;
     check_call := fun _ _ => Worlds.always (Err Worlds.CalledProcessError);
     environ_contains := environ_contains Worlds.managed;
     execv := execv Worlds.managed;
     sys_executable := sys_executable Worlds.managed;
     sys_argv := sys_argv Worlds.managed |}.

(** A daemon configured with a negative interval. *)
Definition hasty : AutoUpdate := mk_self (-1) None true.

End Scenes.

(** ** The thread

    [AutoUpdate] is a [threading.Thread] (line 17) and [run] is the body of
    that thread.  What leaves the body of a thread ends the thread, not the
    interpreter: [threading] drops a [SystemExit] silently and hands any
    other exception to [threading.excepthook].  In the main thread a
    [SystemExit] ends the process with its status, and an uncaught
    exception ends it with status 1.  [os.execv] replaces the process from
    any thread. *)
Inductive thread : Type := MainThread | DaemonThread.

Inductive process_effect : Type :=
| Goes_on               (* the process is still there *)
| Exits (status : Z)    (* the process terminates with this status *)
| Is_replaced.          (* a new image runs in the process *)

Definition process_effect_of (th : thread) (o : outcome unit) : process_effect :=
  match o, th with
  | Replaced, _ => Is_replaced
  | Return _, _ => Goes_on
  | SystemExit code, MainThread => Exits code
  | Raise _, MainThread => Exits 1
  | SystemExit _, DaemonThread => Goes_on
  | Raise _, DaemonThread => Goes_on
  end.

(** [start()]: the loop runs in a thread of its own. *)
Definition start (env : Env) (vlib : VersionLib) (self : AutoUpdate)
    (n : nat) (t : trace) : process_effect * trace :=
  let '(o, t') := run env vlib self n t in
  (process_effect_of DaemonThread o, t').

(** The remote cannot be reached: every pull fails, and GitPython reports
    the failed command as a GitCommandError.  HEAD stays on main. *)
Module Offline.

Definition unreachable : exn :=
  mk_exn GitCommandError
    "fatal: unable to access 'https://github.com/tplr-ai/templar/': Could not resolve host: github.com".

Definition world : Env :=
  {| repo_open := repo_open Worlds.calm;
     remotes_origin := remotes_origin Worlds.calm;
     origin_fetch := origin_fetch Worlds.calm;
     read_remote_blob := read_remote_blob Worlds.calm;
     reload_init := reload_init Worlds.calm;
     imported_version := imported_version Worlds.calm;
     is_dirty := is_dirty Worlds.calm;
     origin_pull := fun _ _ _ => Worlds.always (Err unreachable);
     git_reset := git_reset Worlds.calm;
     active_branch := active_branch Worlds.calm;
     index_diff := index_diff Worlds.calm;
     git_checkout := git_checkout Worlds.calm;
     index_commit := index_commit Worlds.calm;
     check_call := check_call Worlds.calm;
     environ_contains := environ_contains Worlds.calm;
     execv := execv Worlds.calm;
     sys_executable := sys_executable Worlds.calm;
     sys_argv := sys_argv Worlds.calm |}.

End Offline.

(** * Runs on concrete inputs *)

Example split_equals :
  split "="%char "__version__ = 1" = ["__version__ "; " 1"].
Proof. reflexivity. Qed.

Example strip_both_ends : strip "  ab c  " = "ab c".
Proof. reflexivity. Qed.

(** The version is read from the first line that starts with the name. *)
Example get_remote_version_reads :
  get_remote_version Worlds.calm Worlds.daemon []
  = (Return (Some "0.3.0"),
     [Call RemotesOrigin; Call (OriginFetch 5);
      Call (ReadRemoteBlob "main" ["src"; "templar"; "__init__.py"])]).
Proof. reflexivity. Qed.

(** No line starts with the name: the loop ends and the method returns
    None, with nothing logged. *)
Example get_remote_version_no_declaration :
  get_remote_version
    (Worlds.world (Ok "# templar") (Ok "0.2.9") false (Ok tt) (Ok "main") []
       (Ok tt) false)
    Worlds.daemon []
  = (Return None,
     [Call RemotesOrigin; Call (OriginFetch 5);
      Call (ReadRemoteBlob "main" ["src"; "templar"; "__init__.py"])]).
Proof. reflexivity. Qed.

(** The line has no equals sign: the IndexError is caught and logged. *)
Example get_remote_version_no_equals :
  get_remote_version
    (Worlds.world (Ok "__version__") (Ok "0.2.9") false (Ok tt) (Ok "main") []
       (Ok tt) false)
    Worlds.daemon []
  = (Return None,
     [Call RemotesOrigin; Call (OriginFetch 5);
      Call (ReadRemoteBlob "main" ["src"; "templar"; "__init__.py"]);
      Log ERROR "Failed to get remote version for version check"
        (Some (mk_exn IndexError "list index out of range"))]).
Proof. reflexivity. Qed.

(** Without the attribute [repo] the AttributeError is caught as well. *)
Example get_remote_version_no_repo :
  get_remote_version Worlds.calm (mk_self 4 None false) []
  = (Return None,
     [Log ERROR "Failed to get remote version for version check" (Some no_repo)]).
Proof. reflexivity. Qed.

Example semver_precedence :
  option_map (SemVer.compare (SemVer.mk 0 2 9 None)) (SemVer.parse "0.3.0") = Some Lt
  /\ option_map (SemVer.compare (SemVer.mk 0 10 0 None)) (SemVer.parse "0.9.0") = Some Gt
  /\ option_map (SemVer.compare (SemVer.mk 1 0 0 None)) (SemVer.parse "1.0.0") = Some Eq
  /\ option_map (SemVer.compare (SemVer.mk 1 0 0 None)) (SemVer.parse "1.0.0-rc.1") = Some Gt
  /\ option_map (SemVer.compare (SemVer.mk 1 0 0 (Some [SemVer.Alnum "alpha"])))
       (SemVer.parse "1.0.0-alpha.1") = Some Lt
  /\ SemVer.parse "1.0" = None
  /\ SemVer.parse "latest" = None.
Proof. repeat split; reflexivity. Qed.

(** One cycle in a quiet world with a newer remote: check, pull, sync and
    re-execution of the interpreter. *)
Example run_one_cycle :
  fst (run Worlds.calm SemVer.lib Worlds.daemon 1 []) = Replaced
  /\ filter mutates_repo (snd (run Worlds.calm SemVer.lib Worlds.daemon 1 []))
     = [Call (OriginPull "main" (Some 10) true)].
Proof. split; reflexivity. Qed.

(** The bounds of [time.sleep]: 2562047 hours can be slept, 2562048 hours
    overflow the timestamp; a negative length is refused, and one below
    the range overflows as well. *)
Example time_sleep_bounds :
  time_sleep (2562047 * 3600) [] = (Return tt, [Call (TimeSleep 9223369200)])
  /\ time_sleep (2562048 * 3600) [] = (Raise timestamp_overflow, [])
  /\ time_sleep (-1) [] = (Raise negative_sleep, [])
  /\ time_sleep (-9223372036) [] = (Raise negative_sleep, [])
  /\ time_sleep (-9223372037) [] = (Raise timestamp_overflow, []).
Proof. repeat split; reflexivity. Qed.

(** In its thread, an exit of the loop leaves the process running. *)
Example exit_in_thread :
  process_effect_of DaemonThread (SystemExit 1) = Goes_on
  /\ process_effect_of MainThread (SystemExit 1) = Exits 1
  /\ process_effect_of DaemonThread Replaced = Is_replaced.
Proof. repeat split; reflexivity. Qed.

(** ** The constructor *)

Lemma init_binds_repo (env : Env) (interval : Z) (name : option string)
    (t : trace) :
  exists self t',
    __init__ env interval name t = (Return self, t')
    /\ interval_hours self = interval
    /\ process_name self = name
    /\ (has_repo self = true <-> repo_open env t = Ok tt).
Proof.
  unfold __init__. py_simpl.
  destruct (repo_open env t) as [[] | e]; py_simpl;
    do 2 eexists; (split; [reflexivity |]); cbn;
    repeat split; try reflexivity; discriminate.
Qed.

(** ** The order on versions *)

Lemma compare_pre_refl (a : list SemVer.ident) : SemVer.compare_pre a a = Eq.
Proof.
  induction a as [| x a IH]; cbn; [reflexivity |].
  assert (Hx : SemVer.compare_ident x x = Eq).
  { destruct x as [n | s]; cbn.
    - apply N.compare_refl.
    - pose proof (String.compare_antisym s s) as H.
      destruct (String.compare s s); [reflexivity | discriminate H ..]. }
  rewrite Hx. exact IH.
Qed.

Lemma semver_compare_refl (v : SemVer.t) : SemVer.compare v v = Eq.
Proof.
  unfold SemVer.compare. rewrite !N.compare_refl. cbn.
  destruct (SemVer.pre v); [apply compare_pre_refl | reflexivity].
Qed.

(** * Properties *)

(** ** The restart *)

(** The method on its own: in the managed branch (the marker PM2_HOME is in
    the environment) and without a process name, [restart_app] logs an
    error and ends in [sys.exit] with a status that is not zero; no command
    was handed to [subprocess.check_call], so that no restart was asked of
    the manager. *)
Theorem restart_app_without_identity (env : Env) (self : AutoUpdate) (t : trace) :
  environ_contains env "PM2_HOME" (t ++ [Log INFO "Restarting application..." None]) = true ->
  truthy (process_name self) = false ->
  exists code added,
    restart_app env self t = (SystemExit code, t ++ added)
    /\ code <> 0
    /\ added = [Log INFO "Restarting application..." None;
                Call (EnvironContains "PM2_HOME");
                Log ERROR no_process_name None]
    /\ existsb is_check_call added = false.
Proof.
  intros Hpm2 Hname.
  exists 1. eexists.
  split; [| split; [lia | split; reflexivity]].
  unfold restart_app, bind, log, in_environ.
  rewrite Hpm2, Hname. cbn [negb sys_exit].
  trace_norm. reflexivity.
Qed.

Lemma restart_app_without_identity_witness :
  exists code added,
    restart_app Worlds.managed Worlds.daemon []
    = (SystemExit code, [] ++ added)
    /\ code <> 0
    /\ added = [Log INFO "Restarting application..." None;
                Call (EnvironContains "PM2_HOME");
                Log ERROR no_process_name None]
    /\ existsb is_check_call added = false.
Proof.
  apply restart_app_without_identity; reflexivity.
Defined.

(** ** The dependency synchronisation (C8) *)

Lemma attempt_package_update_returns (env : Env) (t : trace) :
  exists t', attempt_package_update env t = (Return tt, t').
Proof.
  unfold attempt_package_update, bind, try_except, ext, log, log_exception.
  destruct (check_call env uv_sync (Some 300) _); eexists; reflexivity.
Qed.

(** C8: [attempt_package_update] returns normally from every history; a
    failure of the external command is recorded by [logger.exception]; and
    once the version check and the pull have succeeded, [try_update] is
    [restart_app] run after the synchronisation, whatever its answer. *)
Theorem attempt_package_update_never_fatal (env : Env) (vlib : VersionLib)
    (self : AutoUpdate) (t t1 t2 : trace) :
  check_version_updated env vlib self t = (Return true, t1) ->
  attempt_update env self t1 = (Return true, t2) ->
  (forall t0, exists t', attempt_package_update env t0 = (Return tt, t'))
  /\ (forall t0 e,
        check_call env uv_sync (Some 300)
          (t0 ++ [Log INFO "Attempting to update packages using 'uv sync --extra all'..." None])
        = Err e ->
        attempt_package_update env t0
        = (Return tt,
           t0 ++ [Log INFO "Attempting to update packages using 'uv sync --extra all'..." None;
                  Call (CheckCall uv_sync (Some 300));
                  Log ERROR "Failed to synchronize dependencies with uv" (Some e)]))
  /\ exists t3,
       attempt_package_update env t2 = (Return tt, t3)
       /\ try_update env vlib self t = restart_app env self t3.
Proof.
  intros Hcheck Hpull. split; [| split].
  - intro t0. apply attempt_package_update_returns.
  - intros t0 e He.
    unfold attempt_package_update, bind, try_except, ext, log, log_exception.
    rewrite He. cbn. trace_norm. reflexivity.
  - destruct (attempt_package_update_returns env t2) as [t3 H3].
    exists t3. split; [exact H3 |].
    unfold try_update, bind. rewrite Hcheck. cbn [negb].
    rewrite Hpull. cbn [negb]. rewrite H3. reflexivity.
Qed.

Lemma attempt_package_update_never_fatal_witness :
  let env := Worlds.world (Ok (Worlds.init_text "0.3.0")) (Ok "0.2.9") false
               (Ok tt) (Ok "main") [] (Err Worlds.CalledProcessError) true in
  exists t3,
    attempt_package_update env
      (snd (attempt_update env Worlds.miner
              (snd (check_version_updated env SemVer.lib Worlds.miner []))))
    = (Return tt, t3)
    /\ try_update env SemVer.lib Worlds.miner [] = restart_app env Worlds.miner t3.
Proof.
  intro env.
  refine (proj2 (proj2 (attempt_package_update_never_fatal env SemVer.lib
                          Worlds.miner [] _ _ _ _))); reflexivity.
Defined.

(** ** The pull (C2, C3) *)

(** C2: when [is_dirty] answers True, [attempt_update] returns False and
    issues no pull, no commit and no other command that changes the
    repository; its events are the lookup of the remote, the query and the
    error record.  (Should the lookup of the remote fail first, False is
    returned all the same, with the record of that failure.) *)
Theorem attempt_update_dirty (env : Env) (self : AutoUpdate) (t : trace) :
  is_dirty env (t ++ [Call RemotesOrigin]) = Ok true ->
  exists added,
    attempt_update env self t = (Return false, t ++ added)
    /\ existsb is_pull added = false
    /\ existsb is_commit added = false
    /\ existsb mutates_repo added = false
    /\ (has_repo self = true -> remotes_origin env t = Ok tt ->
        added = [Call RemotesOrigin; Call (IsDirty false);
                 Log ERROR dirty_message None]).
Proof.
  intro Hdirty.
  unfold attempt_update. py_simpl.
  destruct (has_repo self); py_simpl.
  - destruct (remotes_origin env t) as [[] | e]; py_simpl.
    + rewrite Hdirty. py_simpl. eexists. trace_norm.
      split; [reflexivity |]. repeat split; reflexivity.
    + eexists. trace_norm. split; [reflexivity |].
      repeat split; try reflexivity. intros _ H; discriminate H.
  - eexists. split; [reflexivity |].
    repeat split; try reflexivity. intro H; discriminate H.
Qed.

Lemma attempt_update_dirty_witness :
  exists added,
    attempt_update (Worlds.world (Ok (Worlds.init_text "0.3.0")) (Ok "0.2.9")
                      true (Ok tt) (Ok "main") [] (Ok tt) false)
      Worlds.daemon [] = (Return false, [] ++ added)
    /\ existsb is_pull added = false
    /\ existsb is_commit added = false
    /\ existsb mutates_repo added = false
    /\ (has_repo Worlds.daemon = true ->
        Ok tt = Ok tt ->
        added = [Call RemotesOrigin; Call (IsDirty false);
                 Log ERROR dirty_message None]).
Proof.
  apply (attempt_update_dirty
           (Worlds.world (Ok (Worlds.init_text "0.3.0")) (Ok "0.2.9")
              true (Ok tt) (Ok "main") [] (Ok tt) false) Worlds.daemon []).
  reflexivity.
Defined.

(** ** Calls that succeed, and the call that fails *)

Section Behaviour.

Variable env : Env.
Variable self : AutoUpdate.

Lemma steps_ok_app (a b : list event) : forall t,
  steps_ok env t (a ++ b) <-> steps_ok env t a /\ steps_ok env (t ++ a) b.
Proof.
  induction a as [| ev a IH]; intro t; cbn [app steps_ok].
  - rewrite app_nil_r. tauto.
  - rewrite IH. rewrite <- app_assoc. cbn [app]. tauto.
Qed.

Lemma behaves_ret {A} (a : A) (Q : A -> Prop) :
  Q a -> behaves env self (ret a) Q.
Proof.
  intros HQ t. cbn. split; [exact HQ |].
  exists []. rewrite app_nil_r. split; [reflexivity | exact I].
Qed.

Lemma behaves_bind {A B} (m : M A) (k : A -> M B) (Q : A -> Prop)
    (R : B -> Prop) :
  behaves env self m Q ->
  (forall a, Q a -> behaves env self (k a) R) ->
  behaves env self (bind m k) R.
Proof.
  intros Hm Hk t. unfold bind. specialize (Hm t).
  destruct (m t) as [[a | e | c |] t1]; try contradiction.
  - destruct Hm as [HQ [add1 [-> Hok1]]].
    specialize (Hk a HQ (t ++ add1)).
    destruct (k a (t ++ add1)) as [[b | e | c |] t2]; try contradiction.
    + destruct Hk as [HR [add2 [-> Hok2]]]. split; [exact HR |].
      exists (add1 ++ add2). rewrite app_assoc. split; [reflexivity |].
      apply steps_ok_app. split; assumption.
    + destruct Hk as [h [Hokh Hlast]]. exists (add1 ++ h).
      split; [apply steps_ok_app; split; assumption |].
      destruct Hlast as [[-> [Hno ->]] | [c [-> Hfail]]].
      * left. rewrite app_assoc. repeat split; assumption.
      * right. exists c. rewrite !app_assoc in *. split; [reflexivity | exact Hfail].
  - exact Hm.
Qed.

Lemma behaves_ext {A} (c : command) (answer : trace -> result A) :
  (forall h, failure env c h = error_of (answer h)) ->
  behaves env self (ext c answer) (fun _ => True).
Proof.
  intros Hf t. unfold ext. destruct (answer t) as [a | e] eqn:E.
  - split; [exact I |]. exists [Call c]. split; [reflexivity |].
    cbn. rewrite Hf, E. split; [reflexivity | exact I].
  - exists []. split; [exact I |]. right. exists c.
    rewrite app_nil_r. cbn [app]. split; [reflexivity |].
    rewrite Hf, E. reflexivity.
Qed.

Lemma behaves_log (lv : level) (msg : string) :
  behaves env self (log lv msg) (fun _ => True).
Proof.
  intro t. cbn. split; [exact I |].
  eexists. split; [reflexivity |]. cbn. tauto.
Qed.

Lemma behaves_self_repo : behaves env self (self_repo self) (fun _ => True).
Proof.
  intro t. unfold self_repo. destruct (has_repo self) eqn:E; cbn.
  - split; [exact I |]. exists []. rewrite app_nil_r. split; [reflexivity | exact I].
  - exists []. split; [exact I |]. left. rewrite app_nil_r. auto.
Qed.

Lemma behaves_git {A} (c : command) (answer : trace -> result A) :
  (forall h, failure env c h = error_of (answer h)) ->
  behaves env self (git self c answer) (fun _ => True).
Proof.
  intro Hf. unfold git.
  eapply behaves_bind; [apply behaves_self_repo |].
  intros _ _. apply behaves_ext, Hf.
Qed.

Lemma behaves_checkout_theirs (paths : list string) :
  behaves env self (checkout_theirs env self paths) (fun _ => True).
Proof.
  induction paths as [| p paths IH]; cbn [checkout_theirs].
  - apply behaves_ret. exact I.
  - eapply behaves_bind; [apply behaves_log |]. intros _ _.
    eapply behaves_bind; [apply behaves_git; intro; reflexivity |].
    intros _ _. exact IH.
Qed.

Lemma behaves_resolution :
  behaves env self (resolution env self) (fun b => b = true).
Proof.
  unfold resolution.
  repeat first
    [ apply behaves_ret; reflexivity
    | eapply behaves_bind;
      [ first [ apply behaves_git; intro; reflexivity
              | apply behaves_ext; intro; reflexivity
              | apply behaves_log
              | apply behaves_checkout_theirs ]
      | intros ? _ ] ].
Qed.

End Behaviour.

(** ** The conflict resolver (C4, C5) *)

Lemma handle_merge_conflicts_ends (env : Env) (self : AutoUpdate) (t : trace) :
  match fst (handle_merge_conflicts env self t) with
  | Return _ | Raise _ => True
  | _ => False
  end.
Proof.
  pose proof (behaves_resolution env self t) as Hb.
  unfold handle_merge_conflicts, try_except.
  destruct (resolution env self t) as [[b | e | c |] t1]; try contradiction.
  - exact I.
  - destruct (is_GitCommandError e); exact I.
Qed.

Lemma attempt_update_returns (env : Env) (self : AutoUpdate) (t : trace) :
  exists b t', attempt_update env self t = (Return b, t').
Proof.
  unfold attempt_update. py_simpl.
  destruct (has_repo self); py_simpl; [| eauto].
  destruct (remotes_origin env t) as [[] | e]; py_simpl; [| eauto].
  destruct (is_dirty env _) as [[|] | e]; py_simpl; eauto.
  destruct (origin_pull env TARGET_BRANCH (Some 10) true _) as [[] | e];
    py_simpl; [eauto |].
  destruct (is_GitCommandError e); py_simpl; [| eauto].
  match goal with
  | |- context [handle_merge_conflicts env self ?h] =>
      pose proof (handle_merge_conflicts_ends env self h) as He;
      destruct (handle_merge_conflicts env self h) as [[b | e' | c |] t1]
  end; cbn in He; try contradiction; eauto.
Qed.

Lemma checkout_theirs_returns (env : Env) (self : AutoUpdate)
    (paths : list string) : forall t t',
  checkout_theirs env self paths t = (Return tt, t') ->
  t' = t ++ checkout_events paths.
Proof.
  induction paths as [| p paths IH]; intros t t' H; cbn [checkout_theirs] in H.
  - injection H as <-. cbn. now rewrite app_nil_r.
  - revert H. py_simpl. destruct (has_repo self); py_simpl; [| discriminate].
    destruct (git_checkout env "--theirs" p _); py_simpl; [| discriminate].
    intro H. apply IH in H. subst t'. cbn [checkout_events flat_map].
    trace_norm. reflexivity.
Qed.

Lemma filter_checkout_events (paths : list string) :
  filter is_pull (checkout_events paths) = []
  /\ filter is_commit (checkout_events paths) = []
  /\ filter is_checkout (checkout_events paths)
     = map (fun p => Call (GitCheckout "--theirs" p)) paths.
Proof.
  unfold checkout_events.
  induction paths as [| p paths [IH1 [IH2 IH3]]];
    cbn [flat_map app filter is_pull is_commit is_checkout map]; [auto |].
  rewrite IH3. auto.
Qed.

(** The success case of the resolver: when [handle_merge_conflicts]
    returns True it has issued, in this order, [git reset --merge], a pull
    without rebase of the branch named like the active branch, a
    [git checkout --theirs] of every path that [index.diff(None)] listed,
    and one commit with the resolution message; every one of these calls
    succeeded. *)
Theorem handle_merge_conflicts_success (env : Env) (self : AutoUpdate)
    (t t' : trace) :
  handle_merge_conflicts env self t = (Return true, t') ->
  exists branch paths,
    active_branch env (t ++ [Call (GitReset "--merge"); Call RemotesOrigin])
    = Ok branch
    /\ index_diff env
         (t ++ [Call (GitReset "--merge"); Call RemotesOrigin;
                Call ActiveBranch; Call (OriginPull branch None false)])
       = Ok paths
    /\ t' = t ++ resolution_events branch paths
    /\ steps_ok env t (resolution_events branch paths)
    /\ filter is_pull (resolution_events branch paths)
       = [Call (OriginPull branch None false)]
    /\ filter is_checkout (resolution_events branch paths)
       = map (fun p => Call (GitCheckout "--theirs" p)) paths
    /\ filter is_commit (resolution_events branch paths)
       = [Call (IndexCommit commit_message)].
Proof.
  intro H.
  assert (Hok : exists added, t' = t ++ added /\ steps_ok env t added).
  { pose proof (behaves_resolution env self t) as Hb.
    unfold handle_merge_conflicts, try_except in H.
    destruct (resolution env self t) as [[b | e | c |] t1]; try contradiction.
    - injection H as -> ->. apply Hb.
    - destruct (is_GitCommandError e); discriminate H. }
  revert H. unfold handle_merge_conflicts, resolution. py_simpl.
  destruct (has_repo self); py_simpl; [| discriminate].
  destruct (git_reset env "--merge" t) as [[] | e]; py_simpl;
    [| destruct (is_GitCommandError e); discriminate].
  destruct (remotes_origin env _) as [[] | e]; py_simpl;
    [| destruct (is_GitCommandError e); discriminate].
  destruct (active_branch env _) as [branch | e] eqn:Hbranch; py_simpl;
    [| destruct (is_GitCommandError e); discriminate].
  destruct (origin_pull env branch None false _) as [[] | e]; py_simpl;
    [| destruct (is_GitCommandError e); discriminate].
  destruct (index_diff env _) as [paths | e] eqn:Hdiff; py_simpl;
    [| destruct (is_GitCommandError e); discriminate].
  destruct (checkout_theirs env self paths _) as [[[] | e | c |] t6] eqn:Hloop;
    py_simpl; try discriminate;
    [| destruct (is_GitCommandError e); discriminate].
  apply checkout_theirs_returns in Hloop. subst t6.
  destruct (index_commit env commit_message _) as [[] | e]; py_simpl;
    [| destruct (is_GitCommandError e); discriminate].
  intro H. injection H as <-.
  exists branch, paths.
  assert (Ht : ((((((((t ++ [Call (GitReset "--merge")]) ++ [Call RemotesOrigin])
                      ++ [Call ActiveBranch])
                     ++ [Call (OriginPull branch None false)])
                    ++ [Call IndexDiff]) ++ checkout_events paths)
                  ++ [Call (IndexCommit commit_message)])
                 ++ [Log INFO "Merge conflicts resolved, repository updated to remote state." None])
                ++ [Log INFO "✅ Successfully updated" None]
                = t ++ resolution_events branch paths).
  { unfold resolution_events. trace_norm. reflexivity. }
  rewrite Ht in *.
  destruct Hok as [added [Hadded Hsteps]].
  apply app_inv_head in Hadded. subst added.
  destruct (filter_checkout_events paths) as [F1 [F2 F3]].
  refine (conj _ (conj _ (conj eq_refl (conj Hsteps (conj _ (conj _ _)))))).
  - revert Hbranch. trace_norm. tauto.
  - revert Hdiff. trace_norm. tauto.
  - unfold resolution_events. cbn [app filter is_pull].
    rewrite filter_app, F1. reflexivity.
  - unfold resolution_events. cbn [app filter is_checkout].
    rewrite filter_app, F3. cbn. now rewrite app_nil_r.
  - unfold resolution_events. cbn [app filter is_commit].
    rewrite filter_app, F2. reflexivity.
Qed.

(** C4: what the resolver does on a conflicting pull.  The pull of
    [attempt_update] is a rebase; when it stops on a conflict, HEAD is
    detached, and [git reset --merge] leaves it so.  Then
    [repo.active_branch] raises an exception that is no GitCommandError,
    and [handle_merge_conflicts] ends there: after the reset and the
    lookup of the remote it pulls nothing, checks out no file and makes no
    commit.  The exception leaves the resolver, and [attempt_update] logs
    it and returns False. *)
Theorem handle_merge_conflicts_detached_head (env : Env) (self : AutoUpdate)
    (t : trace) (e0 e : exn) :
  let tc := t ++ [Call RemotesOrigin; Call (IsDirty false);
                  Log DEBUG "Attempting to pull the latest changes..." None;
                  Call (OriginPull TARGET_BRANCH (Some 10) true);
                  Log ERROR conflict_message (Some e0)] in
  let added := [Call (GitReset "--merge"); Call RemotesOrigin; Call ActiveBranch] in
  has_repo self = true ->
  remotes_origin env t = Ok tt ->
  is_dirty env (t ++ [Call RemotesOrigin]) = Ok false ->
  origin_pull env TARGET_BRANCH (Some 10) true
    (t ++ [Call RemotesOrigin; Call (IsDirty false);
           Log DEBUG "Attempting to pull the latest changes..." None])
  = Err e0 ->
  is_GitCommandError e0 = true ->
  git_reset env "--merge" tc = Ok tt ->
  remotes_origin env (tc ++ [Call (GitReset "--merge")]) = Ok tt ->
  active_branch env (tc ++ [Call (GitReset "--merge"); Call RemotesOrigin]) = Err e ->
  is_GitCommandError e = false ->
  handle_merge_conflicts env self tc = (Raise e, tc ++ added)
  /\ attempt_update env self t
     = (Return false, tc ++ added ++ [Log ERROR update_failed (Some e)])
  /\ filter is_pull added = []
  /\ filter is_checkout added = []
  /\ filter is_commit added = [].
Proof.
  intros tc added Hrepo Horigin Hclean Hpull Hcls0 Hreset Horigin2 Hhead Hcls.
  assert (Hres : handle_merge_conflicts env self tc = (Raise e, tc ++ added)).
  { unfold handle_merge_conflicts, resolution. py_simpl. rewrite Hrepo. py_simpl.
    rewrite Hreset. py_simpl. rewrite Horigin2. py_simpl.
    revert Hhead. trace_norm. intro Hhead. rewrite Hhead. py_simpl.
    rewrite Hcls. subst added. trace_norm. reflexivity. }
  split; [exact Hres |]. split; [| repeat split].
  unfold attempt_update. py_simpl. rewrite Hrepo. py_simpl.
  rewrite Horigin. py_simpl. rewrite Hclean. py_simpl. trace_norm.
  rewrite Hpull. py_simpl. rewrite Hcls0. py_simpl. trace_norm.
  fold tc. rewrite Hres. py_simpl. subst added. trace_norm. reflexivity.
Qed.

Lemma handle_merge_conflicts_detached_head_witness :
  let tc := [Call RemotesOrigin; Call (IsDirty false);
             Log DEBUG "Attempting to pull the latest changes..." None;
             Call (OriginPull TARGET_BRANCH (Some 10) true);
             Log ERROR conflict_message (Some Worlds.conflict)] in
  let added := [Call (GitReset "--merge"); Call RemotesOrigin; Call ActiveBranch] in
  handle_merge_conflicts Worlds.detached Worlds.daemon tc
  = (Raise Worlds.detached_head, tc ++ added)
  /\ attempt_update Worlds.detached Worlds.daemon []
     = (Return false,
        tc ++ added ++ [Log ERROR update_failed (Some Worlds.detached_head)])
  /\ filter is_pull added = []
  /\ filter is_checkout added = []
  /\ filter is_commit added = [].
Proof.
  apply (handle_merge_conflicts_detached_head Worlds.detached Worlds.daemon []
           Worlds.conflict Worlds.detached_head); reflexivity.
Defined.

(** What the commands of the resolver leave in the files rests on git.
    For any repository state on which [checkout --theirs p] writes the
    remote version of [p], leaves the other paths and the remote versions
    alone, and on which a commit does not change file content, every path
    that was listed holds the remote version once the loop and the commit
    are through. *)
Section GitContract.

Variable G : Type.
Variable effect : command -> G -> G.
Variable content theirs : G -> string -> option string.

Hypothesis checkout_writes : forall g p,
  content (effect (GitCheckout "--theirs" p) g) p = theirs g p.
Hypothesis checkout_local : forall g p q,
  q <> p -> content (effect (GitCheckout "--theirs" p) g) q = content g q.
Hypothesis checkout_keeps_theirs : forall g p q,
  theirs (effect (GitCheckout "--theirs" p) g) q = theirs g q.
Hypothesis commit_keeps_content : forall g m q,
  content (effect (IndexCommit m) g) q = content g q.

Lemma replay_checkout_snoc (paths : list string) (q : string) (g : G) :
  replay effect (checkout_events (paths ++ [q])) g
  = effect (GitCheckout "--theirs" q) (replay effect (checkout_events paths) g).
Proof.
  unfold replay, checkout_events. rewrite flat_map_app, fold_left_app.
  reflexivity.
Qed.

Lemma replay_checkout_theirs (paths : list string) (g : G) (q : string) :
  theirs (replay effect (checkout_events paths) g) q = theirs g q.
Proof.
  induction paths as [| p paths IH] using rev_ind; [reflexivity |].
  rewrite replay_checkout_snoc, checkout_keeps_theirs. exact IH.
Qed.

Lemma replay_checkout_content (paths : list string) (g : G) (p : string) :
  In p paths ->
  content (replay effect (checkout_events paths) g) p = theirs g p.
Proof.
  induction paths as [| q paths IH] using rev_ind; [intros [] |].
  intro Hin. rewrite replay_checkout_snoc.
  destruct (string_dec p q) as [-> | Hne].
  - rewrite checkout_writes. apply replay_checkout_theirs.
  - rewrite checkout_local by exact Hne. apply IH.
    apply in_app_or in Hin. destruct Hin as [Hin | [Heq | []]];
      [exact Hin | now elim Hne].
Qed.

Lemma resolution_writes_theirs (paths : list string) (g : G) (p : string) :
  In p paths ->
  content
    (replay effect
       (checkout_events paths
        ++ [Call (IndexCommit commit_message);
            Log INFO "Merge conflicts resolved, repository updated to remote state." None;
            Log INFO "✅ Successfully updated" None])
       g) p
  = theirs g p.
Proof.
  intro Hin. unfold replay. rewrite fold_left_app. cbn [fold_left].
  rewrite commit_keeps_content. apply replay_checkout_content, Hin.
Qed.

End GitContract.

(** C5, as the code has it.  [handle_merge_conflicts] ends in one of three
    ways.  True: every call succeeded.  False: a call raised a
    GitCommandError; that call is the last one issued, and the record of
    [logger.exception] is the only event after it.  An exception that is
    not a GitCommandError: it leaves the resolver as it was raised, with
    nothing logged and nothing issued after the failing call.  In
    [attempt_update], which calls the resolver after a pull that raised a
    GitCommandError, a result of the resolver is returned as it is, and an
    exception that left the resolver is logged by the handler of
    [attempt_update], which then returns False. *)
Theorem handle_merge_conflicts_failure (env : Env) (self : AutoUpdate)
    (t : trace) :
  (exists added,
     snd (handle_merge_conflicts env self t) = t ++ added
     /\ match fst (handle_merge_conflicts env self t) with
        | Return true => steps_ok env t added
        | Return false =>
            exists h c e,
              added = h ++ [Call c; Log ERROR resolve_failed (Some e)]
              /\ steps_ok env t h
              /\ failure env c (t ++ h) = Some e
              /\ is_GitCommandError e = true
        | Raise e =>
            is_GitCommandError e = false
            /\ exists h,
                 steps_ok env t h
                 /\ ((added = h /\ has_repo self = false /\ e = no_repo)
                     \/ exists c, added = h ++ [Call c]
                                  /\ failure env c (t ++ h) = Some e)
        | _ => False
        end)
  /\ (exists b t', attempt_update env self t = (Return b, t'))
  /\ (forall e0,
        has_repo self = true ->
        remotes_origin env t = Ok tt ->
        is_dirty env (t ++ [Call RemotesOrigin]) = Ok false ->
        origin_pull env TARGET_BRANCH (Some 10) true
          (t ++ [Call RemotesOrigin; Call (IsDirty false);
                 Log DEBUG "Attempting to pull the latest changes..." None])
        = Err e0 ->
        is_GitCommandError e0 = true ->
        let tc := t ++ [Call RemotesOrigin; Call (IsDirty false);
                        Log DEBUG "Attempting to pull the latest changes..." None;
                        Call (OriginPull TARGET_BRANCH (Some 10) true);
                        Log ERROR conflict_message (Some e0)] in
        (forall b t',
           handle_merge_conflicts env self tc = (Return b, t') ->
           attempt_update env self t = (Return b, t'))
        /\ (forall e t',
              handle_merge_conflicts env self tc = (Raise e, t') ->
              attempt_update env self t
              = (Return false, t' ++ [Log ERROR update_failed (Some e)]))).
Proof.
  split; [| split].
  - pose proof (behaves_resolution env self t) as Hb.
    unfold handle_merge_conflicts, try_except.
    destruct (resolution env self t) as [[b | e | c |] t1]; try contradiction.
    + destruct Hb as [-> [added [-> Hok]]]. exists added. cbn. auto.
    + destruct Hb as [h [Hok Hlast]].
      destruct (is_GitCommandError e) eqn:Hcls.
      * destruct Hlast as [[_ [_ ->]] | [c [-> Hfail]]]; [discriminate Hcls |].
        exists (h ++ [Call c; Log ERROR resolve_failed (Some e)]).
        cbn. split; [trace_norm; reflexivity |].
        exists h, c, e. auto.
      * destruct Hlast as [[-> [Hno ->]] | [c [-> Hfail]]].
        -- exists h. cbn. split; [reflexivity |]. split; [reflexivity |].
           exists h. auto.
        -- exists (h ++ [Call c]). cbn. split; [reflexivity |].
           split; [exact Hcls |]. exists h. split; [exact Hok |].
           right. exists c. auto.
  - apply attempt_update_returns.
  - intros e0 Hrepo Horigin Hclean Hpull Hcls0 tc.
    assert (Hrun : attempt_update env self t
                   = match handle_merge_conflicts env self tc with
                     | (Raise e, t') =>
                         (Return false, t' ++ [Log ERROR update_failed (Some e)])
                     | r => r
                     end).
    { unfold attempt_update. py_simpl. rewrite Hrepo. py_simpl.
      rewrite Horigin. py_simpl. rewrite Hclean. py_simpl. trace_norm.
      rewrite Hpull. py_simpl. rewrite Hcls0. py_simpl. trace_norm.
      fold tc. destruct (handle_merge_conflicts env self tc) as [[b | e | c |] t1];
        reflexivity. }
    split.
    + intros b t' H. rewrite Hrun, H. reflexivity.
    + intros e t' H. rewrite Hrun, H. reflexivity.
Qed.

Lemma handle_merge_conflicts_failure_witness :
  attempt_update Worlds.detached Worlds.daemon []
  = (Return false,
     [Call RemotesOrigin; Call (IsDirty false);
      Log DEBUG "Attempting to pull the latest changes..." None;
      Call (OriginPull TARGET_BRANCH (Some 10) true);
      Log ERROR conflict_message (Some Worlds.conflict);
      Call (GitReset "--merge"); Call RemotesOrigin; Call ActiveBranch]
     ++ [Log ERROR update_failed (Some Worlds.detached_head)]).
Proof.
  exact (proj2 (proj2 (proj2 (handle_merge_conflicts_failure Worlds.detached
                                Worlds.daemon []))
                  Worlds.conflict eq_refl eq_refl eq_refl eq_refl eq_refl)
           Worlds.detached_head _ eq_refl).
Defined.

(** C5 as stated fails when a step raises something else than a
    GitCommandError: on a detached HEAD [repo.active_branch] raises a
    TypeError, which leaves [handle_merge_conflicts] uncaught and
    unlogged. *)
Lemma handle_merge_conflicts_lets_escape :
  handle_merge_conflicts Worlds.detached Worlds.daemon []
  = (Raise Worlds.detached_head,
     [Call (GitReset "--merge"); Call RemotesOrigin; Call ActiveBranch])
  /\ fst (handle_merge_conflicts Worlds.detached Worlds.daemon [])
     <> Return false.
Proof.
  split; [reflexivity | discriminate].
Qed.

(** ** The pull failure paths (C3) *)

(** C3, as the code has it: once [attempt_update] reaches the pull, the
    class of the exception decides.  A pull that succeeds gives True; a
    pull that raises a GitCommandError, whatever made the command fail,
    gives what [handle_merge_conflicts] returns (False, after a record, if
    that one raises); a pull that raises anything else gives False after
    the record of the failure, with no step of the resolver.  And a step
    of the resolver among the events of [attempt_update] means that the
    pull raised a GitCommandError. *)
Theorem attempt_update_conflict_only (env : Env) (self : AutoUpdate) (t : trace) :
  let tp := t ++ [Call RemotesOrigin; Call (IsDirty false);
                  Log DEBUG "Attempting to pull the latest changes..." None] in
  let pull := Call (OriginPull TARGET_BRANCH (Some 10) true) in
  (has_repo self = true ->
   remotes_origin env t = Ok tt ->
   is_dirty env (t ++ [Call RemotesOrigin]) = Ok false ->
   match origin_pull env TARGET_BRANCH (Some 10) true tp with
   | Ok _ =>
       attempt_update env self t
       = (Return true,
          tp ++ [pull; Log DEBUG "Successfully pulled the latest changes" None])
   | Err e =>
       if is_GitCommandError e then
         match handle_merge_conflicts env self
                 (tp ++ [pull; Log ERROR conflict_message (Some e)]) with
         | (Return b, t') => attempt_update env self t = (Return b, t')
         | (Raise e', t') =>
             attempt_update env self t
             = (Return false, t' ++ [Log ERROR update_failed (Some e')])
         | _ => False
         end
       else
         attempt_update env self t
         = (Return false, tp ++ [pull; Log ERROR update_failed (Some e)])
         /\ existsb is_resolution_step [pull; Log ERROR update_failed (Some e)]
            = false
   end)
  /\ (forall added,
        snd (attempt_update env self t) = t ++ added ->
        existsb is_resolution_step added = true ->
        exists e,
          origin_pull env TARGET_BRANCH (Some 10) true tp = Err e
          /\ is_GitCommandError e = true).
Proof.
  intros tp pull. subst tp pull. split.
  - intros Hrepo Horigin Hclean.
    unfold attempt_update. py_simpl. rewrite Hrepo. py_simpl.
    rewrite Horigin. py_simpl. rewrite Hclean. py_simpl. trace_norm.
    destruct (origin_pull env TARGET_BRANCH (Some 10) true _) as [[] | e];
      py_simpl; trace_norm; [reflexivity |].
    destruct (is_GitCommandError e); py_simpl; trace_norm; [| split; reflexivity].
    match goal with
    | |- context [handle_merge_conflicts env self ?h] =>
        pose proof (handle_merge_conflicts_ends env self h) as He;
        destruct (handle_merge_conflicts env self h) as [[b | e' | c |] t1]
    end; cbn in He; try contradiction; reflexivity.
  - intros added. unfold attempt_update. py_simpl.
    destruct (has_repo self); py_simpl.
    2:{ intros H Hres. apply app_inv_head in H. subst. discriminate Hres. }
    destruct (remotes_origin env t) as [[] | e]; py_simpl; trace_norm.
    2:{ intros H Hres. apply app_inv_head in H. subst. discriminate Hres. }
    destruct (is_dirty env _) as [[|] | e]; py_simpl; trace_norm.
    1, 3: intros H Hres; apply app_inv_head in H; subst; discriminate Hres.
    destruct (origin_pull env TARGET_BRANCH (Some 10) true _) as [[] | e];
      py_simpl; trace_norm.
    { intros H Hres. apply app_inv_head in H. subst. discriminate Hres. }
    destruct (is_GitCommandError e) eqn:Hcls; py_simpl; trace_norm.
    + intros _ _. exists e. split; [reflexivity | exact Hcls].
    + intros H Hres. apply app_inv_head in H. subst. discriminate Hres.
Qed.

Lemma attempt_update_conflict_only_witness :
  attempt_update Offline.world Worlds.daemon []
  = (Return false,
     [Call RemotesOrigin; Call (IsDirty false);
      Log DEBUG "Attempting to pull the latest changes..." None;
      Call (OriginPull TARGET_BRANCH (Some 10) true);
      Log ERROR conflict_message (Some Offline.unreachable);
      Call (GitReset "--merge"); Call RemotesOrigin; Call ActiveBranch;
      Call (OriginPull "main" None false);
      Log ERROR resolve_failed (Some Offline.unreachable)]).
Proof.
  exact (proj1 (attempt_update_conflict_only Offline.world Worlds.daemon [])
           eq_refl eq_refl eq_refl).
Defined.

(** C3 as stated fails on a pull that cannot reach the remote: the failed
    command arrives as a GitCommandError, as a conflict does, and the
    resolver is invoked: it resets, looks up the branch and pulls again
    before [attempt_update] returns False. *)
Lemma attempt_update_resolves_unreachable_remote :
  origin_pull Offline.world TARGET_BRANCH (Some 10) true
    [Call RemotesOrigin; Call (IsDirty false);
     Log DEBUG "Attempting to pull the latest changes..." None]
  = Err Offline.unreachable
  /\ fst (attempt_update Offline.world Worlds.daemon []) = Return false
  /\ existsb is_resolution_step (snd (attempt_update Offline.world Worlds.daemon []))
     = true
  /\ filter mutates_repo (snd (attempt_update Offline.world Worlds.daemon []))
     = [Call (OriginPull TARGET_BRANCH (Some 10) true);
        Call (GitReset "--merge");
        Call (OriginPull "main" None false)].
Proof.
  repeat split; reflexivity.
Qed.

(** ** The scheduler loop (C9) *)


Lemma time_sleep_returns (secs : Z) (t t' : trace) :
  time_sleep secs t = (Return tt, t') -> t' = t ++ [Call (TimeSleep secs)].
Proof.
  unfold time_sleep.
  destruct (negb (fits_timestamp secs)); [discriminate |].
  destruct (secs <? 0); [discriminate |].
  intro H. injection H as <-. reflexivity.
Qed.



Lemma run_exit (env : Env) (vlib : VersionLib) (self : AutoUpdate)
    (n : nat) (t t' : trace) (code : Z) :
  try_update env vlib self (t ++ [Log INFO "Running autoupdate" None])
  = (SystemExit code, t') ->
  run env vlib self (S n) t = (SystemExit code, t').
Proof.
  intro H. cbn [run]. unfold cycle. py_simpl. rewrite H. reflexivity.
Qed.

(** C9: a [sys.exit] of [restart_app] is not an [Exception]: it goes
    through [try_update] and through the handler of [run].  The loop ends
    with that exit status, and its trace ends where [restart_app] stopped:
    nothing is logged by the handler and there is no sleep. *)
Theorem run_lets_exit_through (env : Env) (vlib : VersionLib)
    (self : AutoUpdate) (n : nat) (t t1 t2 t3 t' : trace) (code : Z) :
  check_version_updated env vlib self (t ++ [Log INFO "Running autoupdate" None])
  = (Return true, t1) ->
  attempt_update env self t1 = (Return true, t2) ->
  attempt_package_update env t2 = (Return tt, t3) ->
  restart_app env self t3 = (SystemExit code, t') ->
  try_update env vlib self (t ++ [Log INFO "Running autoupdate" None])
  = (SystemExit code, t')
  /\ run env vlib self (S n) t = (SystemExit code, t').
Proof.
  intros Hcheck Hpull Hsync Hrestart.
  assert (Htry : try_update env vlib self (t ++ [Log INFO "Running autoupdate" None])
                 = (SystemExit code, t')).
  { unfold try_update, bind. rewrite Hcheck. cbn [negb].
    rewrite Hpull. cbn [negb]. rewrite Hsync. exact Hrestart. }
  split; [exact Htry |]. apply run_exit, Htry.
Qed.

Lemma run_lets_exit_through_witness :
  try_update Worlds.managed SemVer.lib Worlds.daemon
    ([] ++ [Log INFO "Running autoupdate" None])
  = (SystemExit 1,
     snd (restart_app Worlds.managed Worlds.daemon
            (snd (attempt_package_update Worlds.managed
                    (snd (attempt_update Worlds.managed Worlds.daemon
                            (snd (check_version_updated Worlds.managed SemVer.lib
                                    Worlds.daemon
                                    [Log INFO "Running autoupdate" None]))))))))
  /\ run Worlds.managed SemVer.lib Worlds.daemon 5 []
     = (SystemExit 1,
        snd (restart_app Worlds.managed Worlds.daemon
               (snd (attempt_package_update Worlds.managed
                       (snd (attempt_update Worlds.managed Worlds.daemon
                               (snd (check_version_updated Worlds.managed SemVer.lib
                                       Worlds.daemon
                                       [Log INFO "Running autoupdate" None])))))))).
Proof.
  eapply (run_lets_exit_through Worlds.managed SemVer.lib Worlds.daemon 4 []);
    reflexivity.
Defined.

(** ** The version check (C1, C10) *)

Lemma scan_lines_pure (lines : list string) (t : trace) :
  (exists r, scan_lines lines t = (Return r, t))
  \/ (exists e, scan_lines lines t = (Raise e, t)).
Proof.
  induction lines as [| line lines IH]; cbn [scan_lines].
  - left. eexists. reflexivity.
  - destruct (startswith line "__version__"); [| exact IH].
    unfold version_info. py_simpl.
    destruct (nth_error _ 1); [left | right]; eexists; reflexivity.
Qed.

Lemma get_remote_version_returns (env : Env) (self : AutoUpdate) (t : trace) :
  exists r t', get_remote_version env self t = (Return r, t').
Proof.
  unfold get_remote_version. py_simpl.
  destruct (has_repo self); py_simpl; [| eauto].
  destruct (remotes_origin env t) as [[] | e]; py_simpl; [| eauto].
  destruct (origin_fetch env _) as [[] | e]; py_simpl; [| eauto].
  destruct (read_remote_blob env _ _ _) as [text | e]; py_simpl; [| eauto].
  match goal with
  | |- context [scan_lines ?l ?h] =>
      destruct (scan_lines_pure l h) as [[r ->] | [e ->]]
  end; py_simpl; eauto.
Qed.

Lemma reload_local_version_returns (env : Env) (t : trace) :
  exists l t', reload_local_version env t = (Return l, t').
Proof.
  unfold reload_local_version. py_simpl.
  destruct (reload_init env t); py_simpl; eauto.
Qed.

Lemma check_version_updated_eq (env : Env) (vlib : VersionLib)
    (self : AutoUpdate) (t t1 t2 : trace) (r : option string) (l : string) :
  get_remote_version env self t = (Return r, t1) ->
  reload_local_version env t1 = (Return l, t2) ->
  check_version_updated env vlib self t
  = if truthy r then compare_versions vlib (fmt r) l t2
    else (Return false,
          t1 ++ [Log ERROR "Failed to get remote version, skipping version check" None]).
Proof.
  intros Hremote Hlocal.
  unfold check_version_updated. unfold bind at 1. rewrite Hremote.
  destruct (truthy r); cbn [negb].
  - unfold bind at 1. rewrite Hlocal. reflexivity.
  - reflexivity.
Qed.

(** C1, as the code has it.  With [r] what [get_remote_version] returned
    and [l] the local version: [check_version_updated] returns True exactly
    when [r] is a non-empty string, both strings parse and the remote
    version is greater; it returns False when [r] is None or empty, and
    when both parse and the remote version is not greater (equal versions
    among them); when the remote string does not parse, the exception of
    [version.parse] leaves the method. *)
Theorem check_version_updated_newer (env : Env) (vlib : VersionLib)
    (self : AutoUpdate) (t t1 t2 : trace) (r : option string) (l : string) :
  get_remote_version env self t = (Return r, t1) ->
  reload_local_version env t1 = (Return l, t2) ->
  let o := fst (check_version_updated env vlib self t) in
  (o = Return true <->
   exists s vr vl,
     r = Some s /\ s <> EmptyString /\ parse vlib s = Some vr
     /\ parse vlib l = Some vl /\ vcompare vlib vr vl = Gt)
  /\ (r = None \/ r = Some EmptyString -> o = Return false)
  /\ (forall s vr vl,
        r = Some s -> s <> EmptyString -> parse vlib s = Some vr ->
        parse vlib l = Some vl -> vcompare vlib vr vl <> Gt ->
        o = Return false)
  /\ (forall s vl,
        r = Some s -> s <> EmptyString -> parse vlib l = Some vl ->
        parse vlib s = None ->
        o = Raise (invalid_version s)).
Proof.
  intros Hremote Hlocal o. subst o.
  rewrite (check_version_updated_eq env vlib self t t1 t2 r l Hremote Hlocal).
  destruct r as [[| c s] |]; cbn [truthy fmt fst].
  - split; [| split; [| split]].
    + split; [discriminate |].
      intros [s [vr [vl [Hs [Hne _]]]]]. injection Hs as <-. now elim Hne.
    + reflexivity.
    + intros s vr vl Hs Hne. injection Hs as <-. now elim Hne.
    + intros s vl Hs Hne. injection Hs as <-. now elim Hne.
  - unfold compare_versions, version_parse, version_gt. py_simpl.
    destruct (parse vlib l) as [vl |] eqn:Hl; py_simpl;
      [destruct (parse vlib (String c s)) as [vr |] eqn:Hr; py_simpl;
       [destruct (vcompare vlib vr vl) eqn:Hcmp; py_simpl |] |];
      cbn [fst]; (split; [| split; [| split]]);
      try (intros [H | H]; discriminate H);
      try (split; [discriminate |
                   intros [s' [vr' [vl' [Hs [_ [Hr' [Hl' Hc']]]]]]];
                   injection Hs as <-; congruence]);
      try (intros s' vr' vl' Hs _ Hr' Hl' Hc'; injection Hs as <-;
           first [reflexivity | congruence]);
      try (intros s' vl' Hs _ Hl' Hr'; injection Hs as <-;
           first [reflexivity | congruence]).
    split; [intros _ | reflexivity].
    exists (String c s), vr, vl. repeat split; try assumption. discriminate.
  - split; [| split; [| split]].
    + split; [discriminate |]. intros [s [vr [vl [Hs _]]]]. discriminate Hs.
    + reflexivity.
    + intros s vr vl Hs. discriminate Hs.
    + intros s vl Hs. discriminate Hs.
Qed.

Lemma check_version_updated_newer_witness :
  let o := fst (check_version_updated Worlds.calm SemVer.lib Worlds.daemon []) in
  (o = Return true <->
   exists s vr vl,
     Some "0.3.0" = Some s /\ s <> EmptyString /\ parse SemVer.lib s = Some vr
     /\ parse SemVer.lib "0.2.9" = Some vl /\ vcompare SemVer.lib vr vl = Gt)
  /\ (Some "0.3.0" = None \/ Some "0.3.0" = Some EmptyString -> o = Return false)
  /\ (forall s vr vl,
        Some "0.3.0" = Some s -> s <> EmptyString -> parse SemVer.lib s = Some vr ->
        parse SemVer.lib "0.2.9" = Some vl -> vcompare SemVer.lib vr vl <> Gt ->
        o = Return false)
  /\ (forall s vl,
        Some "0.3.0" = Some s -> s <> EmptyString ->
        parse SemVer.lib "0.2.9" = Some vl ->
        parse SemVer.lib s = None ->
        o = Raise (invalid_version s)).
Proof.
  eapply (check_version_updated_newer Worlds.calm SemVer.lib Worlds.daemon []);
    reflexivity.
Defined.

(** The two examples of the specification: 0.3.0 is newer than 0.2.9, and
    1.0.0 is not newer than 1.0.0. *)
Example check_version_updated_0_3_0 :
  fst (check_version_updated Worlds.calm SemVer.lib Worlds.daemon [])
  = Return true.
Proof. reflexivity. Qed.

Example check_version_updated_equal :
  fst (check_version_updated
         (Worlds.world (Ok (Worlds.init_text "1.0.0")) (Ok "1.0.0") false
            (Ok tt) (Ok "main") [] (Ok tt) false)
         SemVer.lib Worlds.daemon [])
  = Return false.
Proof. reflexivity. Qed.

(** C1 as stated fails on a remote version that does not parse: the remote
    string is obtained, [version.parse] raises, and the method raises
    instead of returning False. *)
Lemma check_version_updated_unparsable_raises :
  fst (get_remote_version Worlds.unparsable Worlds.daemon [])
  = Return (Some "latest")
  /\ parse SemVer.lib "latest" = None
  /\ fst (check_version_updated Worlds.unparsable SemVer.lib Worlds.daemon [])
     = Raise (invalid_version "latest")
  /\ fst (check_version_updated Worlds.unparsable SemVer.lib Worlds.daemon [])
     <> Return false.
Proof.
  repeat split; try reflexivity. discriminate.
Qed.

(** With the SemanticVersion order, the same version on both sides never
    warrants an update. *)
Lemma check_version_updated_same_version (env : Env) (self : AutoUpdate)
    (t t1 t2 : trace) (s : string) (v : SemVer.t) :
  get_remote_version env self t = (Return (Some s), t1) ->
  reload_local_version env t1 = (Return s, t2) ->
  SemVer.parse s = Some v ->
  fst (check_version_updated env SemVer.lib self t) = Return false.
Proof.
  intros Hremote Hlocal Hparse.
  rewrite (check_version_updated_eq env SemVer.lib self t t1 t2 _ _ Hremote Hlocal).
  destruct s as [| c s]; [reflexivity |]. cbn [truthy fmt].
  unfold compare_versions, version_parse, version_gt. py_simpl.
  cbn [parse vcompare SemVer.lib]. rewrite Hparse. py_simpl.
  rewrite semver_compare_refl. reflexivity.
Qed.

(** C10: when the reload of [__init__] fails, [check_version_updated] logs
    the failure and goes on with the comparison of lines 77 to 89, run on
    the remote version and the [__version__] bound at import time; when
    both parse, it returns whether the remote one is greater. *)
Theorem check_version_updated_reload_fallback (env : Env) (vlib : VersionLib)
    (self : AutoUpdate) (t t1 : trace) (s : string) (e : exn) :
  get_remote_version env self t = (Return (Some s), t1) ->
  s <> EmptyString ->
  reload_init env t1 = Err e ->
  check_version_updated env vlib self t
  = compare_versions vlib s (imported_version env)
      (t1 ++ [Call ReloadInit;
              Log ERROR ("Failed to reload local version: " ++ exn_msg e)%string None])
  /\ forall vr vl,
       parse vlib s = Some vr ->
       parse vlib (imported_version env) = Some vl ->
       fst (check_version_updated env vlib self t)
       = Return (version_gt vlib vr vl).
Proof.
  intros Hremote Hne Hreload.
  assert (Hlocal : reload_local_version env t1
                   = (Return (imported_version env),
                      t1 ++ [Call ReloadInit;
                             Log ERROR ("Failed to reload local version: "
                                        ++ exn_msg e)%string None])).
  { unfold reload_local_version. py_simpl. rewrite Hreload. py_simpl.
    trace_norm. reflexivity. }
  rewrite (check_version_updated_eq env vlib self t t1 _ (Some s) _ Hremote Hlocal).
  assert (Htruthy : truthy (Some s) = true).
  { destruct s; [now elim Hne | reflexivity]. }
  rewrite Htruthy. cbn [fmt]. split; [reflexivity |].
  intros vr vl Hr Hl.
  unfold compare_versions, version_parse. py_simpl. rewrite Hl, Hr. py_simpl.
  destruct (version_gt vlib vr vl); reflexivity.
Qed.

Lemma check_version_updated_reload_fallback_witness :
  let env := Worlds.world (Ok (Worlds.init_text "0.3.0"))
               (Err Worlds.reload_failure) false (Ok tt) (Ok "main") []
               (Ok tt) false in
  check_version_updated env SemVer.lib Worlds.daemon []
  = compare_versions SemVer.lib "0.3.0" (imported_version env)
      ([Call RemotesOrigin; Call (OriginFetch 5);
        Call (ReadRemoteBlob TARGET_BRANCH init_path)]
       ++ [Call ReloadInit;
           Log ERROR ("Failed to reload local version: "
                      ++ exn_msg Worlds.reload_failure)%string None])
  /\ forall vr vl,
       parse SemVer.lib "0.3.0" = Some vr ->
       parse SemVer.lib (imported_version env) = Some vl ->
       fst (check_version_updated env SemVer.lib Worlds.daemon [])
       = Return (version_gt SemVer.lib vr vl).
Proof.
  intro env.
  apply (check_version_updated_reload_fallback env SemVer.lib Worlds.daemon []).
  - reflexivity.
  - discriminate.
  - reflexivity.
Defined.

(** * Properties of the remaining code *)

(** ** Reading the remote version ([get_remote_version]) *)

(** X1: [get_remote_version] never raises and never changes the repository.
    It returns a string only after the lookup of the remote, the fetch and
    the read of the blob have all succeeded, and then logs nothing: the
    string is what the scan of the lines of that blob gives.  Once it has
    logged an exception, it returns None. *)
Theorem get_remote_version_none_on_failure (env : Env) (self : AutoUpdate)
    (t : trace) :
  exists r added,
    get_remote_version env self t = (Return r, t ++ added)
    /\ existsb mutates_repo added = false
    /\ (forall v, r = Some v ->
        added = [Call RemotesOrigin; Call (OriginFetch 5);
                 Call (ReadRemoteBlob TARGET_BRANCH init_path)]
        /\ has_repo self = true
        /\ remotes_origin env t = Ok tt
        /\ origin_fetch env (t ++ [Call RemotesOrigin]) = Ok tt
        /\ exists text,
             read_remote_blob env TARGET_BRANCH init_path
               (t ++ [Call RemotesOrigin; Call (OriginFetch 5)])
             = Ok text
             /\ scan_lines (split newline text) (t ++ added)
                = (Return (Some v), t ++ added))
    /\ (forall e,
        In (Log ERROR "Failed to get remote version for version check" (Some e))
          added ->
        r = None).
Proof.
  unfold get_remote_version. py_simpl.
  destruct (has_repo self); py_simpl.
  2:{ do 2 eexists. split; [reflexivity |]. split; [reflexivity |].
      split; [intros v H; discriminate H | reflexivity]. }
  destruct (remotes_origin env t) as [[] | e0]; py_simpl; trace_norm.
  2:{ do 2 eexists. split; [reflexivity |]. split; [reflexivity |].
      split; [intros v H; discriminate H | reflexivity]. }
  destruct (origin_fetch env _) as [[] | e0] eqn:Hfetch; py_simpl; trace_norm.
  2:{ do 2 eexists. split; [reflexivity |]. split; [reflexivity |].
      split; [intros v H; discriminate H | reflexivity]. }
  destruct (read_remote_blob env _ _ _) as [text | e0] eqn:Hread;
    py_simpl; trace_norm.
  2:{ do 2 eexists. split; [reflexivity |]. split; [reflexivity |].
      split; [intros v H; discriminate H | reflexivity]. }
  match goal with
  | |- context [scan_lines ?l ?h] =>
      destruct (scan_lines_pure l h) as [[r Hscan] | [e0 Hscan]]; rewrite Hscan
  end; py_simpl; trace_norm.
  - exists r. eexists. split; [reflexivity |]. split; [reflexivity |].
    split.
    + intros v ->.
      repeat rewrite <- app_assoc in Hread. cbn [app] in Hread.
      repeat rewrite <- app_assoc in Hscan. cbn [app] in Hscan.
      do 3 (split; [reflexivity |]).
      split; [first [exact Hfetch | reflexivity] |].
      exists text. split; [first [exact Hread | reflexivity] | exact Hscan].
    + intros e [H | [H | [H | []]]]; discriminate H.
  - do 2 eexists. split; [reflexivity |]. split; [reflexivity |].
    split; [intros v H; discriminate H | reflexivity].
Qed.



(** *** Strings *)

Lemma lacks_app (c : ascii) (a b : string) :
  lacks c (a ++ b)%string = lacks c a && lacks c b.
Proof.
  induction a as [| x a IH]; cbn; [reflexivity |].
  rewrite IH. now rewrite andb_assoc.
Qed.

Lemma split_no_sep (sep : ascii) (s : string) :
  lacks sep s = true -> split sep s = [s].
Proof.
  induction s as [| x s IH]; cbn; [reflexivity |].
  intro H. apply andb_true_iff in H. destruct H as [Hx Hs].
  apply negb_true_iff in Hx. rewrite Hx, (IH Hs). reflexivity.
Qed.

Lemma split_app_sep (sep : ascii) (a r : string) :
  lacks sep a = true ->
  split sep (a ++ String sep r)%string = a :: split sep r.
Proof.
  induction a as [| x a IH]; cbn.
  - intros _. now rewrite Ascii.eqb_refl.
  - intro H. apply andb_true_iff in H. destruct H as [Hx Ha].
    apply negb_true_iff in Hx. rewrite Hx, (IH Ha). reflexivity.
Qed.

Lemma rstrip_snoc_keep (drop : ascii -> bool) (s : string) (c : ascii) :
  drop c = false ->
  rstrip drop (s ++ String c EmptyString)%string
  = (s ++ String c EmptyString)%string.
Proof.
  intro Hc. induction s as [| x s IH]; cbn.
  - now rewrite Hc.
  - rewrite IH. destruct s; reflexivity.
Qed.

Lemma rstrip_snoc_drop (drop : ascii -> bool) (s : string) (c : ascii) :
  drop c = true ->
  rstrip drop (s ++ String c EmptyString)%string = rstrip drop s.
Proof.
  intro Hc. induction s as [| x s IH]; cbn.
  - now rewrite Hc.
  - rewrite IH. reflexivity.
Qed.

Lemma lstrip_snoc_drop (drop : ascii -> bool) (s : string) (c : ascii) :
  drop c = true ->
  lstrip drop (s ++ String c EmptyString)%string
  = match lstrip drop s with
    | EmptyString => EmptyString
    | w => (w ++ String c EmptyString)%string
    end.
Proof.
  intro Hc. induction s as [| x s IH]; cbn.
  - now rewrite Hc.
  - destruct (drop x); [exact IH | reflexivity].
Qed.

(** Stripping a quoted text strips the text. *)
Lemma strip_with_quoted (drop : ascii -> bool) (s : string) (c : ascii) :
  drop c = true ->
  strip_with drop (String c (s ++ String c EmptyString))
  = strip_with drop s.
Proof.
  intro Hc. unfold strip_with. cbn [lstrip]. rewrite Hc.
  rewrite (lstrip_snoc_drop drop s c Hc).
  destruct (lstrip drop s) as [| y w]; [reflexivity |].
  apply (rstrip_snoc_drop drop (String y w) c Hc).
Qed.

Lemma version_info_declaration (v : string) (t : trace) :
  lacks "=" v = true ->
  version_info (declaration v) t = (Return (strip_space_quote v), t).
Proof.
  intro Hv. unfold version_info.
  change (declaration v)
    with ("__version__ "
          ++ String "=" (String " " (String dquote (v ++ String dquote EmptyString))))%string.
  rewrite split_app_sep by reflexivity.
  rewrite split_no_sep.
  2:{ cbn [lacks]. rewrite lacks_app, Hv. reflexivity. }
  cbn [nth_error]. unfold ret. do 2 f_equal.
  unfold strip, strip_with. cbn [lstrip].
  change (isspace " ") with true. change (isspace dquote) with false.
  cbn match.
  pose proof (rstrip_snoc_keep isspace (String dquote v) dquote eq_refl) as Hk.
  cbn [append] in Hk. rewrite Hk.
  unfold strip_space_quote.
  apply (strip_with_quoted _ v dquote). reflexivity.
Qed.

(** X3: A manifest that declares the literal [v] in the documented form gives
    back [v] without the spaces and quotes at its ends, provided [v] holds
    no equals sign and no newline; a literal without such ends comes back
    as it is. *)
Theorem get_remote_version_reads_declaration (env : Env) (self : AutoUpdate)
    (t : trace) (v : string) :
  has_repo self = true ->
  remotes_origin env t = Ok tt ->
  origin_fetch env (t ++ [Call RemotesOrigin]) = Ok tt ->
  read_remote_blob env TARGET_BRANCH init_path
    (t ++ [Call RemotesOrigin; Call (OriginFetch 5)])
  = Ok (declaration v ++ String newline EmptyString)%string ->
  lacks "=" v = true ->
  lacks newline v = true ->
  fst (get_remote_version env self t) = Return (Some (strip_space_quote v))
  /\ (strip_space_quote v = v ->
      fst (get_remote_version env self t) = Return (Some v)).
Proof.
  intros Hrepo Horigin Hfetch Hread Heq Hnl.
  assert (H : fst (get_remote_version env self t)
              = Return (Some (strip_space_quote v))).
  { unfold get_remote_version. py_simpl. rewrite Hrepo. py_simpl.
    rewrite Horigin. py_simpl. rewrite Hfetch. py_simpl.
    revert Hread. trace_norm. intro Hread. rewrite Hread. py_simpl.
    rewrite split_app_sep.
    2:{ unfold declaration. cbn [append lacks]. rewrite lacks_app, Hnl. reflexivity. }
    cbn [split scan_lines].
    change (startswith (declaration v) "__version__") with true. cbn match.
    py_simpl. rewrite (version_info_declaration v _ Heq). reflexivity. }
  split; [exact H |]. intro Hclean. rewrite H, Hclean. reflexivity.
Qed.

Lemma get_remote_version_reads_declaration_witness :
  fst (get_remote_version Worlds.calm Worlds.daemon [])
  = Return (Some (strip_space_quote "0.3.0"))
  /\ (strip_space_quote "0.3.0" = "0.3.0" ->
      fst (get_remote_version Worlds.calm Worlds.daemon []) = Return (Some "0.3.0")).
Proof.
  apply (get_remote_version_reads_declaration Worlds.calm Worlds.daemon [] "0.3.0");
    reflexivity.
Defined.

(** ** The version check ([check_version_updated]) *)

Lemma compare_versions_reads (vlib : VersionLib) (r l : string) (t : trace) :
  exists added,
    snd (compare_versions vlib r l t) = t ++ added
    /\ completes (fst (compare_versions vlib r l t)) = true
    /\ forallb reads_only added = true.
Proof.
  unfold compare_versions, version_parse. py_simpl.
  destruct (parse vlib l) as [vl |]; py_simpl.
  2:{ exists []. rewrite app_nil_r. auto. }
  destruct (parse vlib r) as [vr |]; py_simpl.
  2:{ exists []. rewrite app_nil_r. auto. }
  destruct (version_gt vlib vr vl); py_simpl; trace_norm;
    eexists; (split; [reflexivity |]); auto.
Qed.

Lemma check_version_updated_reads (env : Env) (vlib : VersionLib)
    (self : AutoUpdate) (t : trace) :
  exists added,
    snd (check_version_updated env vlib self t) = t ++ added
    /\ completes (fst (check_version_updated env vlib self t)) = true
    /\ forallb reads_only added = true.
Proof.
  assert (Hremote : exists r a1,
            get_remote_version env self t = (Return r, t ++ a1)
            /\ forallb reads_only a1 = true).
  { unfold get_remote_version. py_simpl.
    destruct (has_repo self); py_simpl; [| do 2 eexists; split; reflexivity].
    destruct (remotes_origin env t) as [[] | e0]; py_simpl; trace_norm;
      [| do 2 eexists; split; reflexivity].
    destruct (origin_fetch env _) as [[] | e0]; py_simpl; trace_norm;
      [| do 2 eexists; split; reflexivity].
    destruct (read_remote_blob env _ _ _) as [text | e0]; py_simpl; trace_norm;
      [| do 2 eexists; split; reflexivity].
    match goal with
    | |- context [scan_lines ?l ?h] =>
        destruct (scan_lines_pure l h) as [[r ->] | [e0 ->]]
    end; py_simpl; trace_norm; do 2 eexists; split; reflexivity. }
  destruct Hremote as [r [a1 [Hremote Ha1]]].
  assert (Hlocal : exists l a2,
            reload_local_version env (t ++ a1) = (Return l, (t ++ a1) ++ a2)
            /\ forallb reads_only a2 = true).
  { unfold reload_local_version. py_simpl.
    destruct (reload_init env _); py_simpl; trace_norm;
      do 2 eexists; (split; [rewrite <- app_assoc; reflexivity | reflexivity]). }
  destruct Hlocal as [l [a2 [Hlocal Ha2]]].
  rewrite (check_version_updated_eq env vlib self t _ _ r l Hremote Hlocal).
  destruct (truthy r).
  - destruct (compare_versions_reads vlib (fmt r) l ((t ++ a1) ++ a2))
      as [a3 [H3 [Hc Ha3]]].
    exists (a1 ++ a2 ++ a3). rewrite H3. split; [now rewrite !app_assoc |].
    split; [exact Hc |]. rewrite !forallb_app, Ha1, Ha2, Ha3. reflexivity.
  - eexists. cbn [fst snd]. rewrite <- app_assoc. split; [reflexivity |].
    split; [reflexivity |]. rewrite forallb_app, Ha1. reflexivity.
Qed.

(** X4: [check_version_updated] only reads: in every world it returns or raises
    (it neither exits nor replaces the process), and beside log records it
    issues nothing but the lookup of the remote, the fetch, the read of the
    remote blob and the reload of the local module.  Nothing changes the
    repository, no subprocess is started and nothing sleeps. *)
Theorem check_version_updated_only_reads (env : Env) (vlib : VersionLib)
    (self : AutoUpdate) (t : trace) :
  exists added,
    snd (check_version_updated env vlib self t) = t ++ added
    /\ completes (fst (check_version_updated env vlib self t)) = true
    /\ forallb reads_only added = true
    /\ existsb mutates_repo added = false
    /\ existsb is_check_call added = false
    /\ existsb is_sleep added = false
    /\ existsb is_execv added = false.
Proof.
  destruct (check_version_updated_reads env vlib self t) as [added [Ht [Hc Hr]]].
  exists added. split; [exact Ht |]. split; [exact Hc |]. split; [exact Hr |].
  clear Ht Hc.
  assert (H : forall q : event -> bool,
             (forall ev, reads_only ev = true -> q ev = false) ->
             existsb q added = false).
  { intros q Hq. induction added as [| ev added IH]; [reflexivity |].
    cbn [forallb] in Hr. apply andb_true_iff in Hr. destruct Hr as [Hev Hr].
    cbn [existsb]. rewrite (Hq ev Hev), (IH Hr). reflexivity. }
  repeat split; apply H; intros [[] | lv msg exc] Hev;
    first [reflexivity | discriminate Hev].
Qed.

(** X5: The local version is parsed first: when it does not parse,
    [check_version_updated] raises InvalidVersion for the local string,
    whatever the remote version is, and the version check is not logged. *)
Theorem check_version_updated_local_unparsable (env : Env) (vlib : VersionLib)
    (self : AutoUpdate) (t t1 t2 : trace) (s l : string) :
  get_remote_version env self t = (Return (Some s), t1) ->
  s <> EmptyString ->
  reload_local_version env t1 = (Return l, t2) ->
  parse vlib l = None ->
  check_version_updated env vlib self t = (Raise (invalid_version l), t2).
Proof.
  intros Hremote Hne Hlocal Hparse.
  rewrite (check_version_updated_eq env vlib self t t1 t2 _ _ Hremote Hlocal).
  destruct s as [| c s]; [now elim Hne |]. cbn [truthy fmt].
  unfold compare_versions, version_parse. py_simpl. rewrite Hparse. reflexivity.
Qed.

Lemma check_version_updated_local_unparsable_witness :
  check_version_updated Scenes.local_unparsable SemVer.lib Worlds.daemon []
  = (Raise (invalid_version "dev-build"),
     [Call RemotesOrigin; Call (OriginFetch 5);
      Call (ReadRemoteBlob TARGET_BRANCH init_path); Call ReloadInit]).
Proof.
  eapply (check_version_updated_local_unparsable Scenes.local_unparsable
            SemVer.lib Worlds.daemon [] _ _ "0.3.0" "dev-build");
    first [reflexivity | discriminate].
Defined.

(** ** A daemon without a repository ([__init__] and what follows) *)




(** ** The resolver goes through when every call succeeds *)

Lemma checkout_theirs_goes_through (env : Env) (self : AutoUpdate)
    (rest : list event) (paths : list string) : forall t,
  has_repo self = true ->
  steps_ok env t (checkout_events paths ++ rest) ->
  checkout_theirs env self paths t = (Return tt, t ++ checkout_events paths)
  /\ steps_ok env (t ++ checkout_events paths) rest.
Proof.
  induction paths as [| p paths IH]; intros t Hrepo Hsteps.
  - cbn. rewrite app_nil_r. split; [reflexivity | exact Hsteps].
  - cbn [checkout_events flat_map app steps_ok] in Hsteps.
    destruct Hsteps as [_ [Hcall Hsteps]].
    cbn [checkout_theirs]. py_simpl. rewrite Hrepo. py_simpl.
    cbn [failure] in Hcall.
    destruct (git_checkout env "--theirs" p _) as [[] | e]; [| discriminate Hcall].
    py_simpl. fold (checkout_events paths) in Hsteps.
    destruct (IH _ Hrepo Hsteps) as [Hloop Hrest].
    rewrite Hloop. cbn [checkout_events flat_map].
    fold (checkout_events paths). trace_norm.
    split; [reflexivity |]. revert Hrest. trace_norm. tauto.
Qed.

(** X7: The converse of the success case: on an instance with a repository,
    when the active branch is [branch], the changed paths are [paths] and
    none of the calls of the resolution is answered by an exception,
    [handle_merge_conflicts] returns True after exactly these calls.  With
    no changed path it still makes the commit. *)
Theorem handle_merge_conflicts_goes_through (env : Env) (self : AutoUpdate)
    (t : trace) (branch : string) (paths : list string) :
  has_repo self = true ->
  active_branch env (t ++ [Call (GitReset "--merge"); Call RemotesOrigin])
  = Ok branch ->
  index_diff env
    (t ++ [Call (GitReset "--merge"); Call RemotesOrigin; Call ActiveBranch;
           Call (OriginPull branch None false)])
  = Ok paths ->
  steps_ok env t (resolution_events branch paths) ->
  handle_merge_conflicts env self t
  = (Return true, t ++ resolution_events branch paths)
  /\ (paths = [] ->
      filter mutates_repo (resolution_events branch paths)
      = [Call (GitReset "--merge"); Call (OriginPull branch None false);
         Call (IndexCommit commit_message)]).
Proof.
  intros Hrepo Hbranch Hdiff Hsteps.
  split; [| intros ->; reflexivity].
  unfold resolution_events in Hsteps. cbn [app steps_ok failure] in Hsteps.
  destruct Hsteps as [Hreset [Horigin [_ [Hpull [_ Hsteps]]]]].
  repeat rewrite <- app_assoc in Hpull. cbn [app] in Hpull.
  repeat rewrite <- app_assoc in Hsteps. cbn [app] in Hsteps.
  unfold handle_merge_conflicts, resolution. py_simpl. rewrite Hrepo. py_simpl.
  destruct (git_reset env "--merge" t) as [[] | e]; [| discriminate Hreset].
  py_simpl.
  destruct (remotes_origin env _) as [[] | e]; [| discriminate Horigin].
  py_simpl. trace_norm. rewrite Hbranch. py_simpl. trace_norm.
  destruct (origin_pull env branch None false _) as [[] | e]; [| discriminate Hpull].
  py_simpl. trace_norm. rewrite Hdiff. py_simpl. trace_norm.
  destruct (checkout_theirs_goes_through env self _ paths _ Hrepo Hsteps)
    as [Hloop Hrest].
  rewrite Hloop. py_simpl.
  cbn [steps_ok failure] in Hrest. destruct Hrest as [Hcommit _].
  destruct (index_commit env commit_message _) as [[] | e]; [| discriminate Hcommit].
  py_simpl. unfold resolution_events. trace_norm. reflexivity.
Qed.

Lemma handle_merge_conflicts_goes_through_witness :
  handle_merge_conflicts Worlds.calm Worlds.daemon []
  = (Return true, [] ++ resolution_events "main" [])
  /\ (@nil string = [] ->
      filter mutates_repo (resolution_events "main" [])
      = [Call (GitReset "--merge"); Call (OriginPull "main" None false);
         Call (IndexCommit commit_message)]).
Proof.
  apply (handle_merge_conflicts_goes_through Worlds.calm Worlds.daemon []
           "main" []); try reflexivity.
  cbn. repeat split.
Defined.

(** ** The restart ([restart_app]) *)

Lemma restart_app_ends (env : Env) (self : AutoUpdate) (t : trace) :
  match fst (restart_app env self t) with
  | Return _ => False
  | SystemExit code => code = 1
  | _ => True
  end.
Proof.
  unfold restart_app, in_environ, os_execv, time_sleep. py_simpl.
  destruct (environ_contains env "PM2_HOME" _); py_simpl.
  - destruct (truthy (process_name self)); py_simpl; [| reflexivity].
    destruct (check_call env _ None _) as [[] | e]; py_simpl; cbn; auto.
  - destruct (execv env _); cbn; exact I.
Qed.

(** X8: [restart_app] never returns to its caller.  When it ends in
    [sys.exit] the status is 1 and the marker of the process manager was in
    the environment; when the process image is replaced the marker was not
    there, no subprocess was started, and the last call is [os.execv] on
    the interpreter with the interpreter and the original arguments. *)
Theorem restart_app_never_returns (env : Env) (self : AutoUpdate) (t : trace) :
  let pm2 := environ_contains env "PM2_HOME"
               (t ++ [Log INFO "Restarting application..." None]) in
  exists added,
    snd (restart_app env self t) = t ++ added
    /\ match fst (restart_app env self t) with
       | Return _ => False
       | SystemExit code => code = 1 /\ pm2 = true
       | Replaced =>
           pm2 = false
           /\ existsb is_check_call added = false
           /\ added = [Log INFO "Restarting application..." None;
                       Call (EnvironContains "PM2_HOME");
                       Call (Execv (sys_executable env)
                               (sys_executable env :: sys_argv env))]
       | Raise e =>
           if pm2
           then truthy (process_name self) = true
                /\ existsb is_sleep added = false
           else existsb is_execv added = true
       end.
Proof.
  intro pm2. subst pm2.
  unfold restart_app, in_environ, os_execv, time_sleep. py_simpl.
  destruct (environ_contains env "PM2_HOME" _); py_simpl.
  - destruct (truthy (process_name self)); py_simpl.
    + destruct (check_call env _ None _) as [[] | e]; py_simpl; cbn [Z.ltb Z.compare];
        trace_norm; eexists; (split; [reflexivity |]); cbn; auto.
    + trace_norm. eexists. split; [reflexivity |]. cbn. auto.
  - destruct (execv env _); trace_norm; eexists; (split; [reflexivity |]);
      cbn; auto.
Qed.

(** X9: In the managed branch with a process name, [restart_app] asks the
    manager to restart that name; when the manager accepts, it sleeps five
    seconds and exits with status 1; when the command fails, its exception
    is raised at once, with no sleep and no exit. *)
Theorem restart_app_managed (env : Env) (self : AutoUpdate) (t : trace)
    (name : string) :
  environ_contains env "PM2_HOME" (t ++ [Log INFO "Restarting application..." None])
  = true ->
  process_name self = Some name ->
  name <> EmptyString ->
  let h := t ++ [Log INFO "Restarting application..." None;
                 Call (EnvironContains "PM2_HOME");
                 Log INFO ("Detected PM2 environment. Restarting process: " ++ name)%string
                   None] in
  let restart := Call (CheckCall ["pm2"; "restart"; name] None) in
  match check_call env ["pm2"; "restart"; name] None h with
  | Ok _ => restart_app env self t = (SystemExit 1, h ++ [restart; Call (TimeSleep 5)])
  | Err e => restart_app env self t = (Raise e, h ++ [restart])
  end.
Proof.
  intros Hpm2 Hname Hne h restart. subst h restart.
  unfold restart_app, in_environ, time_sleep. py_simpl.
  rewrite Hpm2, Hname. py_simpl.
  destruct name as [| c name]; [now elim Hne |]. cbn [truthy fmt]. py_simpl.
  trace_norm.
  destruct (check_call env _ None _) as [[] | e]; py_simpl;
    trace_norm; reflexivity.
Qed.

Lemma restart_app_managed_witness :
  restart_app Scenes.manager_fails Worlds.miner []
  = (Raise Worlds.CalledProcessError,
     [Log INFO "Restarting application..." None;
      Call (EnvironContains "PM2_HOME");
      Log INFO "Detected PM2 environment. Restarting process: miner" None]
     ++ [Call (CheckCall ["pm2"; "restart"; "miner"] None)]).
Proof.
  apply (restart_app_managed Scenes.manager_fails Worlds.miner [] "miner");
    first [reflexivity | discriminate].
Defined.

(** ** One update attempt ([try_update]) *)

Lemma check_version_updated_ends (env : Env) (vlib : VersionLib)
    (self : AutoUpdate) (t : trace) :
  completes (fst (check_version_updated env vlib self t)) = true.
Proof.
  destruct (check_version_updated_reads env vlib self t) as [_ [_ [H _]]].
  exact H.
Qed.

(** X10: [try_update] returns to [run] in exactly two cases: the check said
    that no update is warranted, or the pull said that it failed.  In both
    the trace ends where the check or the pull ended: no dependency was
    synchronised and no restart was attempted. *)
Theorem try_update_returns_iff (env : Env) (vlib : VersionLib)
    (self : AutoUpdate) (t t' : trace) :
  try_update env vlib self t = (Return tt, t')
  <-> check_version_updated env vlib self t = (Return false, t')
      \/ exists t1,
           check_version_updated env vlib self t = (Return true, t1)
           /\ attempt_update env self t1 = (Return false, t').
Proof.
  unfold try_update. py_simpl.
  destruct (check_version_updated env vlib self t) as [[[|] | e | c |] t1].
  - destruct (attempt_update_returns env self t1) as [b [t2 Hpull]].
    rewrite Hpull. destruct b; py_simpl.
    + destruct (attempt_package_update_returns env t2) as [t3 ->].
      pose proof (restart_app_ends env self t3) as Hend.
      destruct (restart_app env self t3) as [[[] | e | c |] t4]; cbn in Hend.
      * contradiction.
      * split; [discriminate |].
        intros [H | [t1' [H1 H2]]]; [discriminate H |].
        injection H1 as <-. rewrite Hpull in H2. discriminate H2.
      * split; [discriminate |].
        intros [H | [t1' [H1 H2]]]; [discriminate H |].
        injection H1 as <-. rewrite Hpull in H2. discriminate H2.
      * split; [discriminate |].
        intros [H | [t1' [H1 H2]]]; [discriminate H |].
        injection H1 as <-. rewrite Hpull in H2. discriminate H2.
    + split.
      * intro H. injection H as <-. right. exists t1. split; [reflexivity | exact Hpull].
      * intros [H | [t1' [H1 H2]]]; [discriminate H |].
        injection H1 as <-. rewrite Hpull in H2. injection H2 as <-. reflexivity.
  - py_simpl. split.
    + intro H. injection H as <-. left. reflexivity.
    + intros [H | [t1' [H1 _]]]; [| discriminate H1].
      injection H as <-. reflexivity.
  - split; [discriminate |]. intros [H | [t1' [H1 _]]]; discriminate.
  - split; [discriminate |]. intros [H | [t1' [H1 _]]]; discriminate.
  - split; [discriminate |]. intros [H | [t1' [H1 _]]]; discriminate.
Qed.

(** X11: The process is ended or replaced only after an update was applied:
    when [try_update] ends in [sys.exit] or in [os.execv], the version
    check had returned True and the pull had returned True. *)
Theorem try_update_restarts_only_after_update (env : Env) (vlib : VersionLib)
    (self : AutoUpdate) (t : trace) :
  completes (fst (try_update env vlib self t)) = false ->
  exists t1 t2,
    check_version_updated env vlib self t = (Return true, t1)
    /\ attempt_update env self t1 = (Return true, t2).
Proof.
  pose proof (check_version_updated_ends env vlib self t) as Hcheck.
  unfold try_update. py_simpl.
  destruct (check_version_updated env vlib self t) as [[[|] | e | c |] t1];
    cbn in Hcheck; try discriminate Hcheck; py_simpl;
    try (intro H; discriminate H).
  destruct (attempt_update_returns env self t1) as [b [t2 Hpull]].
  rewrite Hpull. destruct b; py_simpl; [| intro H; discriminate H].
  intros _. exists t1, t2. split; [reflexivity | exact Hpull].
Qed.

Lemma try_update_restarts_only_after_update_witness :
  exists t1 t2,
    check_version_updated Worlds.calm SemVer.lib Worlds.daemon [] = (Return true, t1)
    /\ attempt_update Worlds.calm Worlds.daemon t1 = (Return true, t2).
Proof.
  apply (try_update_restarts_only_after_update Worlds.calm SemVer.lib
           Worlds.daemon []).
  reflexivity.
Defined.

(** ** The events of a run that completes *)

Section Emits.

Variable P : event -> Prop.

Lemma emits_ret {A} (a : A) : emits P (ret a).
Proof. intro t. exists []. cbn. rewrite app_nil_r. auto. Qed.

Lemma emits_raise {A} (e : exn) : emits P (@raise A e).
Proof. intro t. exists []. cbn. rewrite app_nil_r. auto. Qed.

Lemma emits_sys_exit {A} (code : Z) : emits P (@sys_exit A code).
Proof. intro t. exists []. cbn. rewrite app_nil_r. split; [reflexivity | discriminate]. Qed.

Lemma emits_bind {A B} (m : M A) (k : A -> M B) :
  emits P m -> (forall a, emits P (k a)) -> emits P (bind m k).
Proof.
  intros Hm Hk t. unfold bind. destruct (Hm t) as [a1 [Ht1 HP1]].
  destruct (m t) as [[a | e | c |] t1]; cbn [fst snd] in *; subst t1.
  - destruct (Hk a (t ++ a1)) as [a2 [Ht2 HP2]].
    exists (a1 ++ a2). rewrite Ht2, app_assoc. split; [reflexivity |].
    intro Hc. apply Forall_app. split; [apply HP1; reflexivity | apply HP2, Hc].
  - exists a1. auto.
  - exists a1. split; [reflexivity | discriminate].
  - exists a1. split; [reflexivity | discriminate].
Qed.

Lemma emits_try {A} (body : M A) (cls : exn -> bool) (handler : exn -> M A) :
  emits P body -> (forall e, emits P (handler e)) ->
  emits P (try_except body cls handler).
Proof.
  intros Hb Hh t. unfold try_except. destruct (Hb t) as [a1 [Ht1 HP1]].
  destruct (body t) as [[a | e | c |] t1]; cbn [fst snd] in *; subst t1.
  - exists a1. auto.
  - destruct (cls e); [| exists a1; auto].
    destruct (Hh e (t ++ a1)) as [a2 [Ht2 HP2]].
    exists (a1 ++ a2). rewrite Ht2, app_assoc. split; [reflexivity |].
    intro Hc. apply Forall_app. split; [apply HP1; reflexivity | apply HP2, Hc].
  - exists a1. split; [reflexivity | discriminate].
  - exists a1. split; [reflexivity | discriminate].
Qed.

Lemma emits_ext {A} (c : command) (answer : trace -> result A) :
  P (Call c) -> emits P (ext c answer).
Proof.
  intros HP t. unfold ext. exists [Call c].
  destruct (answer t); cbn; auto.
Qed.

Lemma emits_log (lv : level) (msg : string) :
  P (Log lv msg None) -> emits P (log lv msg).
Proof. intros HP t. exists [Log lv msg None]. cbn. auto. Qed.

Lemma emits_log_exception (msg : string) (e : exn) :
  P (Log ERROR msg (Some e)) -> emits P (log_exception msg e).
Proof. intros HP t. exists [Log ERROR msg (Some e)]. cbn. auto. Qed.

Lemma emits_git {A} (self : AutoUpdate) (c : command)
    (answer : trace -> result A) :
  P (Call c) -> emits P (git self c answer).
Proof.
  intro HP. unfold git, self_repo. apply emits_bind.
  - destruct (has_repo self); [apply emits_ret | apply emits_raise].
  - intros _. apply emits_ext, HP.
Qed.

End Emits.

(** Solves [emits quiet m] for code built from the plumbing above. *)
Ltac emits_quiet :=
  repeat first
    [ apply emits_ret
    | apply emits_raise
    | apply emits_sys_exit
    | apply emits_log; reflexivity
    | apply emits_log_exception; reflexivity
    | apply emits_git; reflexivity
    | apply emits_ext; reflexivity
    | apply emits_bind; [| intro]
    | apply emits_try; [| intro]
    | match goal with
      | |- emits _ (if ?b then _ else _) => destruct b
      | |- emits _ (match ?x with Some _ => _ | None => _ end) => destruct x
      end ].

Lemma emits_scan_lines (lines : list string) : emits quiet (scan_lines lines).
Proof.
  induction lines as [| line lines IH]; cbn [scan_lines].
  - apply emits_ret.
  - unfold version_info. emits_quiet. exact IH.
Qed.

Lemma emits_check_version_updated (env : Env) (vlib : VersionLib)
    (self : AutoUpdate) :
  emits quiet (check_version_updated env vlib self).
Proof.
  unfold check_version_updated, get_remote_version, reload_local_version,
    version_parse.
  emits_quiet. apply emits_scan_lines.
Qed.

Lemma emits_checkout_theirs (env : Env) (self : AutoUpdate)
    (paths : list string) :
  emits quiet (checkout_theirs env self paths).
Proof.
  induction paths as [| p paths IH]; cbn [checkout_theirs]; emits_quiet.
  exact IH.
Qed.

Lemma emits_attempt_update (env : Env) (self : AutoUpdate) :
  emits quiet (attempt_update env self).
Proof.
  unfold attempt_update, handle_merge_conflicts, resolution.
  emits_quiet. apply emits_checkout_theirs.
Qed.

Lemma emits_attempt_package_update (env : Env) :
  emits quiet (attempt_package_update env).
Proof. unfold attempt_package_update. emits_quiet. Qed.

Lemma restart_app_quiet (env : Env) (self : AutoUpdate) (t : trace) :
  exists added,
    snd (restart_app env self t) = t ++ added
    /\ (completes (fst (restart_app env self t)) = true -> Forall quiet added).
Proof.
  unfold restart_app, in_environ, os_execv, time_sleep. py_simpl.
  destruct (environ_contains env "PM2_HOME" _); py_simpl.
  - destruct (truthy (process_name self)); py_simpl.
    + destruct (check_call env _ None _) as [[] | e]; py_simpl;
        cbn [Z.ltb Z.compare]; trace_norm; eexists;
        (split; [reflexivity |]); cbn [fst completes];
        [discriminate |].
      intros _. repeat constructor.
    + trace_norm. eexists. split; [reflexivity | discriminate].
  - destruct (execv env _); trace_norm; eexists; (split; [reflexivity |]);
      cbn [fst completes]; [| discriminate].
    intros _. repeat constructor.
Qed.

(** [restart_app] does sleep, but only on its way to [sys.exit]. *)
Lemma emits_restart_app (env : Env) (self : AutoUpdate) :
  emits quiet (restart_app env self).
Proof.
  intro t. destruct (restart_app_quiet env self t) as [added [Ht Hq]].
  exists added. split; [exact Ht |]. intro Hc. apply Hq, Hc.
Qed.

Lemma emits_try_update (env : Env) (vlib : VersionLib) (self : AutoUpdate) :
  emits quiet (log INFO "Running autoupdate";; try_update env vlib self).
Proof.
  unfold try_update. apply emits_bind; [apply emits_log; reflexivity | intros _].
  apply emits_bind; [apply emits_check_version_updated | intro].
  destruct (negb a); [apply emits_ret |].
  apply emits_bind; [apply emits_attempt_update | intro].
  destruct (negb a0); [apply emits_ret |].
  apply emits_bind; [apply emits_attempt_package_update | intros _].
  apply emits_restart_app.
Qed.

(** ** The interval of the loop ([run]) *)

Lemma filter_quiet (added : list event) :
  Forall quiet added -> filter is_sleep added = [].
Proof.
  induction 1 as [| ev added Hev _ IH]; [reflexivity |].
  cbn [filter]. unfold quiet in Hev. rewrite Hev. exact IH.
Qed.

Lemma cycle_completes (env : Env) (vlib : VersionLib) (self : AutoUpdate)
    (t t' : trace) :
  0 <= interval_hours self ->
  cycle env vlib self t = (Return tt, t') ->
  exists added,
    t' = t ++ added
    /\ filter is_sleep added = [Call (TimeSleep (interval_hours self * 3600))].
Proof.
  intros Hint. unfold cycle. unfold bind at 1, try_except.
  destruct (emits_try_update env vlib self t) as [a1 [Ht1 HP1]].
  destruct ((log INFO "Running autoupdate";; try_update env vlib self) t)
    as [[[] | e | c |] t1]; cbn [fst snd] in *; subst t1;
    try discriminate.
  - destruct (time_sleep _ _) as [[[] | e' | c' |] t2] eqn:Hs; try discriminate.
    apply time_sleep_returns in Hs. subst t2. intro H. injection H as <-.
    eexists. rewrite <- app_assoc. split; [reflexivity |].
    rewrite filter_app, (filter_quiet a1 (HP1 eq_refl)). reflexivity.
  - cbn [is_Exception]. unfold log_exception.
    destruct (time_sleep _ _) as [[[] | e' | c' |] t2] eqn:Hs; try discriminate.
    apply time_sleep_returns in Hs. subst t2. intro H. injection H as <-.
    eexists. rewrite <- !app_assoc. split; [reflexivity |].
    rewrite filter_app, (filter_quiet a1 (HP1 eq_refl)). reflexivity.
Qed.

(** X12: When [n] cycles of [run] have completed, the loop has slept exactly
    [n] times, each time [interval_hours * 3600] seconds: once at the end
    of every cycle, whether the cycle worked, skipped or failed, and never
    inside a cycle. *)
Theorem run_sleeps_once_per_cycle (env : Env) (vlib : VersionLib)
    (self : AutoUpdate) (n : nat) : forall t t',
  0 <= interval_hours self ->
  run env vlib self n t = (Return tt, t') ->
  exists added,
    t' = t ++ added
    /\ filter is_sleep added
       = repeat (Call (TimeSleep (interval_hours self * 3600))) n.
Proof.
  induction n as [| n IH]; intros t t' Hint; cbn [run].
  - intro H. injection H as <-. exists []. now rewrite app_nil_r.
  - unfold bind.
    destruct (cycle env vlib self t) as [[[] | e | c |] t1] eqn:Hcycle;
      try discriminate.
    intro Hrun.
    destruct (cycle_completes env vlib self t t1 Hint Hcycle) as [a1 [-> H1]].
    destruct (IH _ _ Hint Hrun) as [a2 [-> H2]].
    exists (a1 ++ a2). rewrite app_assoc. split; [reflexivity |].
    rewrite filter_app, H1, H2. reflexivity.
Qed.

Lemma run_sleeps_once_per_cycle_witness :
  exists added,
    snd (run Scenes.up_to_date SemVer.lib Worlds.daemon 3 []) = [] ++ added
    /\ filter is_sleep added
       = repeat (Call (TimeSleep (interval_hours Worlds.daemon * 3600))) 3.
Proof.
  apply (run_sleeps_once_per_cycle Scenes.up_to_date SemVer.lib Worlds.daemon 3 []).
  - cbn. lia.
  - reflexivity.
Defined.

(** X13: The sleep is outside the [try]: with a negative interval, the first
    cycle that completes is the last one.  [time.sleep] raises ValueError
    (OverflowError when the length is below the range of the timestamp),
    nothing catches it, and [run] ends with that exception. *)
Theorem run_negative_interval (env : Env) (vlib : VersionLib)
    (self : AutoUpdate) (n : nat) (t : trace) :
  interval_hours self < 0 ->
  completes (fst (try_update env vlib self (t ++ [Log INFO "Running autoupdate" None])))
  = true ->
  fst (run env vlib self (S n) t)
  = Raise (if fits_timestamp (interval_hours self * 3600)
           then negative_sleep else timestamp_overflow)
  /\ existsb is_sleep (snd (run env vlib self (S n) t)) = existsb is_sleep t.
Proof.
  intros Hint Hc.
  assert (Hsleep : forall h,
             time_sleep (interval_hours self * 3600) h
             = (Raise (if fits_timestamp (interval_hours self * 3600)
                       then negative_sleep else timestamp_overflow), h)).
  { intro h. unfold time_sleep.
    destruct (fits_timestamp (interval_hours self * 3600)); cbn [negb];
      [| reflexivity].
    destruct (interval_hours self * 3600 <? 0) eqn:E; [reflexivity |].
    apply Z.ltb_ge in E. lia. }
  destruct (emits_try_update env vlib self t) as [a1 [Ht1 HP1]].
  revert Ht1 HP1. unfold bind at 1 2, log at 1 2. cbn [fst snd].
  cbn [run]. unfold cycle. py_simpl.
  destruct (try_update env vlib self _) as [[[] | e | c |] t1];
    cbn [fst snd completes] in *; try discriminate Hc; intros -> HP1;
    py_simpl; rewrite Hsleep; cbn [fst snd]; (split; [reflexivity |]).
  - rewrite existsb_app.
    assert (Hq : existsb is_sleep a1 = false).
    { specialize (HP1 eq_refl). clear -HP1.
      induction HP1 as [| ev l Hev _ IH]; [reflexivity |].
      cbn. unfold quiet in Hev. now rewrite Hev, IH. }
    rewrite Hq. apply orb_false_r.
  - rewrite !existsb_app.
    assert (Hq : existsb is_sleep a1 = false).
    { specialize (HP1 eq_refl). clear -HP1.
      induction HP1 as [| ev l Hev _ IH]; [reflexivity |].
      cbn. unfold quiet in Hev. now rewrite Hev, IH. }
    rewrite Hq. cbn. now rewrite !orb_false_r.
Qed.

Lemma run_negative_interval_witness :
  fst (run Scenes.up_to_date SemVer.lib Scenes.hasty 5 []) = Raise negative_sleep
  /\ existsb is_sleep (snd (run Scenes.up_to_date SemVer.lib Scenes.hasty 5 []))
     = existsb is_sleep [].
Proof.
  apply (run_negative_interval Scenes.up_to_date SemVer.lib Scenes.hasty 4 []).
  - cbn. lia.
  - reflexivity.
Defined.

(** ** The loop and its thread (C6, C7) *)








(** C7: the exit of [restart_app] in the thread of the daemon.  With the
    marker of the process manager in the environment and no process name,
    a cycle that has pulled an update ends in [sys.exit(1)] after the error
    record, with no restart command.  That exit leaves [run]; but [run] is
    the body of a thread, so the exit ends the thread and the process goes
    on, with no exit status: only in the main thread would the same exit
    terminate the process with status 1. *)
Theorem restart_exit_ends_thread_only (env : Env) (vlib : VersionLib)
    (self : AutoUpdate) (n : nat) (t t1 t2 t3 : trace) :
  check_version_updated env vlib self (t ++ [Log INFO "Running autoupdate" None])
  = (Return true, t1) ->
  attempt_update env self t1 = (Return true, t2) ->
  attempt_package_update env t2 = (Return tt, t3) ->
  environ_contains env "PM2_HOME" (t3 ++ [Log INFO "Restarting application..." None])
  = true ->
  truthy (process_name self) = false ->
  let issued := [Log INFO "Restarting application..." None;
                 Call (EnvironContains "PM2_HOME");
                 Log ERROR no_process_name None] in
  run env vlib self (S n) t = (SystemExit 1, t3 ++ issued)
  /\ start env vlib self (S n) t = (Goes_on, t3 ++ issued)
  /\ process_effect_of MainThread (fst (run env vlib self (S n) t)) = Exits 1
  /\ existsb is_check_call issued = false.
Proof.
  intros Hcheck Hpull Hsync Hpm2 Hname issued.
  assert (Hrestart : restart_app env self t3 = (SystemExit 1, t3 ++ issued)).
  { unfold restart_app, in_environ. py_simpl. rewrite Hpm2, Hname. py_simpl.
    subst issued. trace_norm. reflexivity. }
  assert (Hrun : run env vlib self (S n) t = (SystemExit 1, t3 ++ issued)).
  { apply run_exit. unfold try_update. py_simpl. rewrite Hcheck. py_simpl.
    rewrite Hpull. py_simpl. rewrite Hsync. exact Hrestart. }
  split; [exact Hrun |]. split; [| split; [| reflexivity]].
  - unfold start. rewrite Hrun. reflexivity.
  - rewrite Hrun. reflexivity.
Qed.

Lemma restart_exit_ends_thread_only_witness :
  let t3 := snd (attempt_package_update Worlds.managed
                   (snd (attempt_update Worlds.managed Worlds.daemon
                           (snd (check_version_updated Worlds.managed SemVer.lib
                                   Worlds.daemon
                                   [Log INFO "Running autoupdate" None]))))) in
  let issued := [Log INFO "Restarting application..." None;
                 Call (EnvironContains "PM2_HOME");
                 Log ERROR no_process_name None] in
  run Worlds.managed SemVer.lib Worlds.daemon 1 [] = (SystemExit 1, t3 ++ issued)
  /\ start Worlds.managed SemVer.lib Worlds.daemon 1 [] = (Goes_on, t3 ++ issued)
  /\ process_effect_of MainThread
       (fst (run Worlds.managed SemVer.lib Worlds.daemon 1 [])) = Exits 1
  /\ existsb is_check_call issued = false.
Proof.
  eapply (restart_exit_ends_thread_only Worlds.managed SemVer.lib Worlds.daemon 0 []);
    reflexivity.
Defined.
